(** * Proctoring client: camera lease manager, monitoring hook and student service

    A shallow embedding of the camera-handling and face-verification code of
    the assessment client:

    - [CameraManager]    hooks/useCameraManager.ts (module-level lease, the
                         hook's [requestCamera] / [releaseCamera] and its
                         unmount effect);
    - [FaceVerification] components/FaceVerification ([initializeCamera]);
    - [FaceDetection]    hooks/useFaceDetection.ts ([setupFaceMesh],
                         [startMonitoring], the [onFrame] guard, the cleanup
                         effect);
    - [StudentService]   services/studentService.ts
                         ([submitWebcamMonitorEvent], [verifyFaceIdentity]);
    - [ViolationTracker] the debounce / cooldown machine of the violation
                         heuristics, whose code is elided in the hook
                         ([onResults]) and is therefore modelled from the
                         specification.

    The browser is modelled by explicit state: the module-level variables of
    the camera manager, the set of media tracks on which [stop()] has been
    called, and logs of the calls made to [getUserMedia] and [releaseCamera].
    Every [async] function is modelled run to completion: what it awaits
    ([getUserMedia], [Camera.start], an HTTP request) is answered by an oracle
    passed as an argument. *)

From Stdlib Require Import ZArith List String Ascii Bool Lia Floats.
From stdpp Require Import base gmap strings.

Local Open Scope string_scope.
Set Warnings "-inexact-float".

(** ** JavaScript values *)

Module JS.

(** [""] is the only falsy string; [null] is falsy; an object is truthy. *)
Definition truthy_string (s : string) : bool := negb (String.eqb s "").

Definition truthy_nullable_string (o : option string) : bool :=
  match o with
  | Some s => truthy_string s
  | None => false
  end.

Definition truthy_object {A : Type} (o : option A) : bool :=
  match o with
  | Some _ => true
  | None => false
  end.

(** [o === s] for a nullable string [o] and a string [s]. *)
Definition strict_eq (o : option string) (s : string) : bool :=
  match o with
  | Some x => String.eqb x s
  | None => false
  end.

(** What a [catch] clause receives. *)
Inductive Thrown : Type :=
| DOMException (name : string)
| TypeError
| Error (message : string).

(** The outcome of a call that may throw (of a promise that may reject). *)
Inductive Completion (A : Type) : Type :=
| Return (a : A)
| Throw (e : Thrown).
Arguments Return {A} a.
Arguments Throw {A} e.

Definition bind {A B : Type} (c : Completion A) (k : A -> Completion B)
  : Completion B :=
  match c with
  | Return a => k a
  | Throw e => Throw e
  end.

(** [try { body } catch (error) { handler }] *)
Definition try_catch {A : Type} (body : Completion A)
           (handler : Thrown -> Completion A) : Completion A :=
  match body with
  | Return a => Return a
  | Throw e => handler e
  end.

End JS.

(** ** The browser's media devices *)

Module Browser.

Definition TrackId := nat.

(** A [MediaStream] object: its identity and the tracks [getTracks()]
    returns. *)
Record MediaStream : Type := {
  stream_id : nat;
  getTracks : list TrackId
}.

Inductive VideoConstraint : Type :=
| VideoAny                                          (* video: true *)
| VideoIdeal (width height : nat) (facingMode : string).

Record Constraints : Type := {
  video : VideoConstraint;
  audio : bool
}.

(** A call of [navigator.mediaDevices.getUserMedia] resolves with a stream
    or rejects. The answer may depend on the calls made before it. *)
Definition GetUserMedia : Type :=
  list Constraints -> Constraints -> JS.Completion MediaStream.

#[global] Instance MediaStream_eq_dec : EqDecision MediaStream.
Proof. solve_decision. Defined.

End Browser.

(** ** hooks/useCameraManager.ts *)

Module CameraManager.
Import Browser.

(** The module-level lease ([currentConsumer], [streamInstance]) together
    with the observable browser state. [gum_calls] and [release_calls] are
    logs, newest call first. *)
Record World : Type := {
  currentConsumer : option string;
  streamInstance : option MediaStream;
  stopped : gset TrackId;
  gum_calls : list Constraints;
  release_calls : list string
}.

(** The state of one instance of the hook. *)
Record Hook : Type := {
  isLoading : bool;
  error : option string;
  stream : option MediaStream;
  consumerIdRef : option string
}.

Definition initial_world : World :=
  {| currentConsumer := None; streamInstance := None; stopped := ∅;
     gum_calls := []; release_calls := [] |}.

(** [useState(false)], [useState(null)], [useState(streamInstance)],
    [useRef(null)]. *)
Definition useCameraManager (w : World) : Hook :=
  {| isLoading := false; error := None; stream := streamInstance w;
     consumerIdRef := None |}.

Definition set_lease (c : option string) (s : option MediaStream)
           (w : World) : World :=
  {| currentConsumer := c; streamInstance := s; stopped := stopped w;
     gum_calls := gum_calls w; release_calls := release_calls w |}.

(** [s.getTracks().forEach(track => track.stop())] *)
Definition stop_tracks (s : MediaStream) (w : World) : World :=
  {| currentConsumer := currentConsumer w;
     streamInstance := streamInstance w;
     stopped := stopped w ∪ list_to_set (getTracks s);
     gum_calls := gum_calls w; release_calls := release_calls w |}.

Definition log_gum (c : Constraints) (w : World) : World :=
  {| currentConsumer := currentConsumer w;
     streamInstance := streamInstance w; stopped := stopped w;
     gum_calls := c :: gum_calls w; release_calls := release_calls w |}.

Definition log_release (id : string) (w : World) : World :=
  {| currentConsumer := currentConsumer w;
     streamInstance := streamInstance w; stopped := stopped w;
     gum_calls := gum_calls w; release_calls := id :: release_calls w |}.

Definition set_local (l : bool) (e : option string)
           (s : option MediaStream) (h : Hook) : Hook :=
  {| isLoading := l; error := e; stream := s;
     consumerIdRef := consumerIdRef h |}.

Definition setError (e : option string) (h : Hook) : Hook :=
  set_local (isLoading h) e (stream h) h.

Definition setStream (s : option MediaStream) (h : Hook) : Hook :=
  set_local (isLoading h) (error h) s h.

Definition set_consumerIdRef (c : option string) (h : Hook) : Hook :=
  {| isLoading := isLoading h; error := error h; stream := stream h;
     consumerIdRef := c |}.

(** The constraints of the single [getUserMedia] call of [requestCamera]. *)
Definition preferred_constraints : Constraints :=
  {| video := VideoIdeal 1280 720 "user"; audio := false |}.

Definition in_use_message (holder : string) : string :=
  "Camera is currently in use by another feature (" ++ holder ++ ").".

(** The message the [catch] branch passes to [setError]. *)
Definition acquisition_error (e : JS.Thrown) : string :=
  match e with
  | JS.DOMException name =>
      if String.eqb name "NotAllowedError" then "Camera access denied."
      else if String.eqb name "NotFoundError" then "No camera detected."
      else if String.eqb name "NotReadableError"
           then "Camera is already in use."
      else "Camera error: " ++ name
  | _ => "Unable to access camera."
  end.

Section WithDevices.
Variable getUserMedia : GetUserMedia.

Definition requestCamera (consumerId : string) (h : Hook) (w : World)
  : option MediaStream * Hook * World :=
  let h := set_consumerIdRef (Some consumerId) h in
  if JS.strict_eq (currentConsumer w) consumerId
     && JS.truthy_object (streamInstance w)
  then (streamInstance w, setStream (streamInstance w) h, w)
  else if JS.truthy_nullable_string (currentConsumer w)
          && negb (JS.strict_eq (currentConsumer w) consumerId)
  then
    (None,
     setError (Some (in_use_message (default "" (currentConsumer w)))) h,
     w)
  else
    (* setIsLoading(true); setError(null); setStream(null) *)
    let h := set_local true None None h in
    (* release any lingering tracks *)
    let w := match streamInstance w with
             | Some old => set_lease (currentConsumer w) None
                                     (stop_tracks old w)
             | None => w
             end in
    let answer := getUserMedia (gum_calls w) preferred_constraints in
    let w := log_gum preferred_constraints w in
    match answer with
    | JS.Return newStream =>
        (Some newStream,
         set_local false None (Some newStream) h,
         set_lease (Some consumerId) (Some newStream) w)
    | JS.Throw err =>
        (None,
         set_local false (Some (acquisition_error err)) None h,
         set_lease None None w)
    end.

End WithDevices.

Definition releaseCamera (consumerId : string) (h : Hook) (w : World)
  : Hook * World :=
  let w := log_release consumerId w in
  if JS.strict_eq (currentConsumer w) consumerId
     && JS.truthy_object (streamInstance w)
  then
    let w := match streamInstance w with
             | Some s => stop_tracks s w
             | None => w
             end in
    (set_local false None None h, set_lease None None w)
  else if JS.strict_eq (consumerIdRef h) consumerId
  then (set_local false None None h, w)
  else (h, w).

(** The unmount effect,
    [useEffect(() => { const id = consumerIdRef.current;
                       return () => { if (id) releaseCamera(id); }; },
               [releaseCamera])].
    [releaseCamera] is a [useCallback] with no dependencies, so the effect
    runs once, after the first render; [unmountEffect] is what it reads
    then, and [unmountCleanup] the function it returns. *)
Definition unmountEffect (h : Hook) : option string := consumerIdRef h.

Definition unmountCleanup (id : option string) (h : Hook) (w : World)
  : Hook * World :=
  if JS.truthy_nullable_string id
  then releaseCamera (default "" id) h w
  else (h, w).

(** The lease is held by [id]: both module-level variables are set. *)
Definition holds (w : World) (id : string) : Prop :=
  currentConsumer w = Some id /\ is_Some (streamInstance w).

(** The two module-level variables are set and cleared together. *)
Definition lease_consistent (w : World) : Prop :=
  is_Some (currentConsumer w) <-> is_Some (streamInstance w).

End CameraManager.

(** ** components/FaceVerification: [initializeCamera] *)

Module FaceVerification.
Import Browser.

Record State : Type := {
  streamRef : option MediaStream;
  videoRef : bool;                       (* videoRef.current is mounted *)
  srcObject : option MediaStream;        (* videoRef.current.srcObject *)
  errorMessage : option string;
  statusMessage : string
}.

Definition ideal_constraints : Constraints :=
  {| video := VideoIdeal 1280 720 "user"; audio := false |}.

Definition basic_constraints : Constraints :=
  {| video := VideoAny; audio := false |}.

Definition camera_error (e : JS.Thrown) : string :=
  match e with
  | JS.DOMException name =>
      if String.eqb name "NotAllowedError"
      then "Camera access denied. Please grant camera permissions and refresh the page."
      else if String.eqb name "NotFoundError"
      then "No camera detected. Please connect a camera and try again."
      else if String.eqb name "NotReadableError"
      then "Camera is already in use by another application. Please close other applications using the camera and try again."
      else "Camera error: " ++ name
           ++ ". Please ensure your camera is working properly."
  | _ => "Unable to access camera. Please ensure camera permissions are granted."
  end.

(** [videoRef.current.srcObject = stream; streamRef.current = stream;
    setStatusMessage(msg)] *)
Definition attach (s : MediaStream) (msg : string) (st : State) : State :=
  {| streamRef := Some s; videoRef := videoRef st;
     srcObject := if videoRef st then Some s else srcObject st;
     errorMessage := errorMessage st; statusMessage := msg |}.

Definition setErrorMessage (e : option string) (st : State) : State :=
  {| streamRef := streamRef st; videoRef := videoRef st;
     srcObject := srcObject st; errorMessage := e;
     statusMessage := statusMessage st |}.

(** Returns the new component state and the log of [getUserMedia] calls
    (newest first), starting from the log [calls]. *)
Definition initializeCamera (getUserMedia : GetUserMedia)
           (st : State) (calls : list Constraints)
  : State * list Constraints :=
  let st := setErrorMessage None st in
  match getUserMedia calls ideal_constraints with
  | JS.Return s =>
      (attach s "Camera initialized. Ready to verify." st,
       ideal_constraints :: calls)
  | JS.Throw _ =>
      let calls := ideal_constraints :: calls in
      match getUserMedia calls basic_constraints with
      | JS.Return s =>
          (attach s "Camera initialized with basic settings. Ready to verify." st,
           basic_constraints :: calls)
      | JS.Throw fallbackError =>
          (setErrorMessage (Some (camera_error fallbackError)) st,
           basic_constraints :: calls)
      end
  end.

End FaceVerification.

(** ** hooks/useFaceDetection.ts *)

Module FaceDetection.
Import Browser.

Definition hookId : string := "faceDetection".

Definition LOOKING_AWAY_DURATION_MS : Z := 1000.
Definition COOLDOWN_PERIOD_MS : Z := 10000.
Definition MAX_FACES_ALLOWED : nat := 1.

(** A MediaPipe [Camera] object held in [cameraRef]. *)
Record CameraObj : Type := { running : bool }.

Record Hook : Type := {
  cam : CameraManager.Hook;              (* the useCameraManager instance *)
  isMonitoring : bool;
  faceMeshRef : bool;                    (* faceMeshRef.current is set *)
  cameraRef : option CameraObj;
  isProcessingRef : bool
}.

(** What the page offers when [setupFaceMesh] runs: the mounted video
    element, the MediaPipe globals on [window], and whether each MediaPipe
    call completes or throws. *)
Record MediaPipe : Type := {
  videoRef : bool;
  window_FaceMesh : bool;
  window_Camera : bool;
  FaceMesh_constructs : bool;
  FaceMesh_configures : bool;            (* setOptions, onResults *)
  Camera_constructs : bool;
  Camera_starts : bool
}.

(** The state values the callbacks of one render close over:
    [setupFaceMesh] is memoised on [cameraStream], [startMonitoring] on
    [isMonitoring] and [setupFaceMesh]. *)
Record Render : Type := {
  cameraStream : option MediaStream;
  monitoring : bool
}.

Definition useFaceDetection (w : CameraManager.World) : Hook :=
  {| cam := CameraManager.useCameraManager w; isMonitoring := false;
     faceMeshRef := false; cameraRef := None; isProcessingRef := false |}.

Definition render (h : Hook) : Render :=
  {| cameraStream := CameraManager.stream (cam h);
     monitoring := isMonitoring h |}.

Definition set_cam (c : CameraManager.Hook) (h : Hook) : Hook :=
  {| cam := c; isMonitoring := isMonitoring h;
     faceMeshRef := faceMeshRef h; cameraRef := cameraRef h;
     isProcessingRef := isProcessingRef h |}.

Definition setIsMonitoring (b : bool) (h : Hook) : Hook :=
  {| cam := cam h; isMonitoring := b; faceMeshRef := faceMeshRef h;
     cameraRef := cameraRef h; isProcessingRef := isProcessingRef h |}.

Definition set_faceMeshRef (b : bool) (h : Hook) : Hook :=
  {| cam := cam h; isMonitoring := isMonitoring h; faceMeshRef := b;
     cameraRef := cameraRef h; isProcessingRef := isProcessingRef h |}.

Definition set_cameraRef (c : option CameraObj) (h : Hook) : Hook :=
  {| cam := cam h; isMonitoring := isMonitoring h;
     faceMeshRef := faceMeshRef h; cameraRef := c;
     isProcessingRef := isProcessingRef h |}.

Definition set_isProcessingRef (b : bool) (h : Hook) : Hook :=
  {| cam := cam h; isMonitoring := isMonitoring h;
     faceMeshRef := faceMeshRef h; cameraRef := cameraRef h;
     isProcessingRef := b |}.

(** [if (cameraRef.current) { cameraRef.current.stop();
                              cameraRef.current = null; }] *)
Definition stop_camera (h : Hook) : Hook := set_cameraRef None h.

(** The [catch] branch of [setupFaceMesh]. *)
Definition setup_failed (h : Hook) : bool * Hook :=
  (false, setIsMonitoring false h).

Definition setupFaceMesh (r : Render) (mp : MediaPipe) (h : Hook)
  : bool * Hook :=
  if negb (JS.truthy_object (cameraStream r)) || negb (videoRef mp)
     || negb (window_FaceMesh mp) || negb (window_Camera mp)
  then (false, h)
  else
    (* try: both globals are present here, so the script loader is skipped
       and the "libraries not available" error is not thrown *)
    let h := stop_camera h in
    if negb (FaceMesh_constructs mp) then setup_failed h
    else
      let h := set_faceMeshRef true h in
      if negb (FaceMesh_configures mp) then setup_failed h
      else if negb (Camera_constructs mp) then setup_failed h
      else
        let h := set_cameraRef (Some {| running := false |}) h in
        if negb (Camera_starts mp) then setup_failed h
        else
          (true,
           setIsMonitoring true
             (set_cameraRef (Some {| running := true |}) h)).

Definition startMonitoring (getUserMedia : GetUserMedia) (r : Render)
           (mp : MediaPipe) (h : Hook) (w : CameraManager.World)
  : bool * Hook * CameraManager.World :=
  if monitoring r then (true, h, w)
  else
    let '(stream, c, w) :=
      CameraManager.requestCamera getUserMedia hookId (cam h) w in
    let h := set_cam c h in
    match stream with
    | None => (false, h, w)
    | Some _ =>
        let '(success, h) := setupFaceMesh r mp h in
        (success, h, w)
    end.

(** The cleanup of the hook's own unmount effect. *)
Definition cleanup (h : Hook) (w : CameraManager.World)
  : Hook * CameraManager.World :=
  let h := stop_camera h in
  let '(c, w) := CameraManager.releaseCamera hookId (cam h) w in
  (setIsMonitoring false (set_cam c h), w).

(** Unmounting the component runs the cleanups in the order the effects
    were declared: the camera manager's (with the id its effect read at
    mount), then the hook's own. *)
Definition unmount (captured : option string) (h : Hook)
           (w : CameraManager.World) : Hook * CameraManager.World :=
  let '(c, w) := CameraManager.unmountCleanup captured (cam h) w in
  cleanup (set_cam c h) w.

(** *** The frame loop *)

(** Calls of [faceMeshRef.current.send]: how many were issued, and which
    of them have not settled yet. *)
Record Inference : Type := {
  issued : nat;
  in_flight : list nat
}.

Inductive FrameEvent : Type :=
| Tick (videoReady : bool)      (* the Camera utility calls onFrame *)
| Settled (call : nat) (resolved : bool).  (* a pending send settles *)

(** [onFrame] up to its [await]. [videoReady] stands for
    [videoRef.current && videoRef.current.readyState >= 2]. *)
Definition onFrame (videoReady : bool) (h : Hook) (i : Inference)
  : Hook * Inference :=
  if negb (isProcessingRef h) && videoReady && faceMeshRef h
  then (set_isProcessingRef true h,
        {| issued := S (issued i); in_flight := issued i :: in_flight i |})
  else (h, i).

(** [onFrame] after its [await]: [catch] logs a rejection, [finally]
    clears the flag. Only a call that is in flight has a continuation. *)
Definition onFrame_resume (call : nat) (resolved : bool) (h : Hook)
           (i : Inference) : Hook * Inference :=
  if bool_decide (call ∈ in_flight i)
  then (set_isProcessingRef false h,
        {| issued := issued i;
           in_flight := filter (fun k => k ≠ call) (in_flight i) |})
  else (h, i).

Definition frame_step (ev : FrameEvent) (st : Hook * Inference)
  : Hook * Inference :=
  match ev with
  | Tick videoReady => onFrame videoReady (fst st) (snd st)
  | Settled call resolved => onFrame_resume call resolved (fst st) (snd st)
  end.

Definition run_frames (evs : list FrameEvent) (st : Hook * Inference)
  : Hook * Inference :=
  fold_left (fun st ev => frame_step ev st) evs st.

(** The loop as the hook creates it: [useRef(false)], nothing sent. *)
Definition frames_start (h : Hook) : Hook * Inference :=
  (set_isProcessingRef false h, {| issued := 0; in_flight := [] |}).

(** At most one call is in flight, and none while the flag is clear. *)
Definition serialized (st : Hook * Inference) : Prop :=
  length (in_flight (snd st)) <= 1
  /\ (isProcessingRef (fst st) = false -> in_flight (snd st) = []).

End FaceDetection.

(** ** services/studentService.ts *)

Module StudentService.

Record AxiosResponse (A : Type) : Type := { data : A }.
Arguments data {A} _.

(** *** [submitWebcamMonitorEvent] *)

Record MonitorAck : Type := {
  received : bool;
  severity : string;
  message : string
}.

Section Monitor.
(** [WebcamEvent] is declared in types/StudentServiceTypes; the service
    only passes it on as the request body. *)
Variable WebcamEvent : Type.
(** [mainApi.post(url, body)] *)
Variable post :
  string -> WebcamEvent -> JS.Completion (AxiosResponse MonitorAck).

Definition monitor_url (attemptId : string) : string :=
  "/student/attempts/" ++ attemptId ++ "/monitor".

Definition submitWebcamMonitorEvent (attemptId : string)
           (webcamEventData : WebcamEvent) : JS.Completion MonitorAck :=
  JS.try_catch
    (JS.bind (post (monitor_url attemptId) webcamEventData)
             (fun res => JS.Return (data res)))
    (fun _ => JS.Throw (JS.Error "Failed to submit webcam monitor event")).

End Monitor.

(** *** [verifyFaceIdentity] *)

(** types/FaceVerificationTypes.ts, the fields the API sends. *)
Record FaceVerificationResponse : Type := {
  id : string;
  name : string;
  confidence : float;
  registered_at : string
}.

(** [res.data]: an array of matches, or a single match. *)
Inductive RecognitionData : Type :=
| DataArray (items : list FaceVerificationResponse)
| DataObject (r : FaceVerificationResponse).

(** [{...responseData, verified, nameMatches}] *)
Record VerificationResult : Type := {
  response : FaceVerificationResponse;
  verified : bool;
  nameMatches : bool
}.

Definition CONFIDENCE_THRESHOLD : float := 0.7%float.

(** [String.prototype.toLowerCase] on the ASCII range: the letters [A]-[Z]
    (codes 65 to 90) move to [a]-[z]; every other character is kept. *)
Definition lower_ascii (c : ascii) : ascii :=
  let n := nat_of_ascii c in
  if (65 <=? n)%nat && (n <=? 90)%nat then ascii_of_nat (n + 32) else c.

Fixpoint toLowerCase (s : string) : string :=
  match s with
  | EmptyString => EmptyString
  | String c rest => String (lower_ascii c) (toLowerCase rest)
  end.

(** [Array.isArray(res.data) && res.data.length > 0 ? res.data[0] : res.data].
    An empty array is returned as it is, and has no [name]. *)
Definition responseData (d : RecognitionData)
  : option FaceVerificationResponse :=
  match d with
  | DataArray (first :: _) => Some first
  | DataArray [] => None
  | DataObject r => Some r
  end.

Section Verify.
Variable FormData : Type.
(** [aiApi.post('/recognition', formData, {headers})] *)
Variable post :
  string -> FormData -> JS.Completion (AxiosResponse RecognitionData).

Definition verifyFaceIdentity (formData : FormData)
           (expectedName : string) : JS.Completion VerificationResult :=
  JS.try_catch
    (JS.bind (post "/recognition" formData) (fun res =>
       match responseData (data res) with
       | None => JS.Throw JS.TypeError   (* undefined.toLowerCase() *)
       | Some r =>
           let matches :=
             String.eqb (toLowerCase (name r)) (toLowerCase expectedName) in
           JS.Return
             {| response := r;
                verified :=
                  PrimFloat.leb CONFIDENCE_THRESHOLD (confidence r)
                  && matches;
                nameMatches := matches |}
       end))
    (fun _ => JS.Throw (JS.Error "Failed to verify face identity")).

End Verify.




End StudentService.

(** ** The violation heuristics engine (debounce and cooldown)

    The hook registers its per-frame logic with
    [faceMeshRef.current.onResults], but the body of that callback is elided
    in hooks/useFaceDetection.ts, and the FaceAttentionChecker component,
    which reports to [studentService.submitWebcamMonitorEvent] and calls
    [onViolationDetected], is present only through its test. The engine
    below therefore follows the specification's description (section 4.3);
    its thresholds are the hook's constants. *)

Module ViolationTracker.

Inductive ViolationKind : Type :=
| FACE_NOT_DETECTED
| MULTIPLE_FACES
| LOOKING_AWAY
| TAB_SWITCHING.

#[global] Instance ViolationKind_eq_dec : EqDecision ViolationKind.
Proof. solve_decision. Defined.

Definition all_kinds : list ViolationKind :=
  [FACE_NOT_DETECTED; MULTIPLE_FACES; LOOKING_AWAY; TAB_SWITCHING].

Inductive Phase : Type := INACTIVE | ACCUMULATING | CONFIRMED | COOLDOWN.

(** Modelled from the spec: the per-kind [ViolationTrackState] of the
    monitoring session (the [onResults] logic that owns it is missing).
    [activeSince] is the start time tracked on entering [ACCUMULATING]. *)
Record ViolationTrackState : Type := {
  phase : Phase;
  activeSince : Z;
  consecutiveActiveDurationMs : Z;
  lastReportedAt : option Z;
  occurrenceCount : nat
}.

Record Config : Type := {
  sustainMs : Z;       (* sustained duration needed to confirm *)
  cooldownMs : Z       (* cooldown window *)
}.

Definition default_config : Config :=
  {| sustainMs := FaceDetection.LOOKING_AWAY_DURATION_MS;
     cooldownMs := FaceDetection.COOLDOWN_PERIOD_MS |}.

(** What a confirmed violation causes: a call of the reporting service and
    a call of the host's [onViolationDetected]. *)
Inductive Effect : Type :=
| ReportSent (kind : ViolationKind) (timestamp durationMs : Z)
| ViolationDetectedCallback (kind : ViolationKind).

Definition effect_kind (e : Effect) : ViolationKind :=
  match e with
  | ReportSent k _ _ => k
  | ViolationDetectedCallback k => k
  end.

Definition initial_track : ViolationTrackState :=
  {| phase := INACTIVE; activeSince := 0; consecutiveActiveDurationMs := 0;
     lastReportedAt := None; occurrenceCount := 0 |}.

Definition to_inactive (st : ViolationTrackState) : ViolationTrackState :=
  {| phase := INACTIVE; activeSince := 0; consecutiveActiveDurationMs := 0;
     lastReportedAt := lastReportedAt st;
     occurrenceCount := occurrenceCount st |}.

(** Modelled from the spec: the confirmation step of the missing
    [onResults] logic. [CONFIRMED] triggers exactly one report (the reporter
    calls the service and the host callback) and moves on to [COOLDOWN]. *)
Definition confirm (k : ViolationKind) (now duration : Z)
           (st : ViolationTrackState) : ViolationTrackState * list Effect :=
  ({| phase := COOLDOWN; activeSince := activeSince st;
      consecutiveActiveDurationMs := duration;
      lastReportedAt := Some now;
      occurrenceCount := S (occurrenceCount st) |},
   [ReportSent k now duration; ViolationDetectedCallback k]).

(** Modelled from the spec: one kind's state machine (the missing
    [onResults] logic), fed with whether the kind's condition is active in
    the observation made at time [now].
    [INACTIVE] becomes [ACCUMULATING] when the condition becomes active;
    [ACCUMULATING] falls back to [INACTIVE] when it clears, and is
    [CONFIRMED] once it has held for at least [sustainMs]; [COOLDOWN] ends
    in [INACTIVE] once [cooldownMs] have passed since the report, whatever
    the condition. *)
Definition track_step (cfg : Config) (k : ViolationKind) (active : bool)
           (now : Z) (st : ViolationTrackState)
  : ViolationTrackState * list Effect :=
  match phase st with
  | INACTIVE =>
      if active
      then ({| phase := ACCUMULATING; activeSince := now;
               consecutiveActiveDurationMs := 0;
               lastReportedAt := lastReportedAt st;
               occurrenceCount := occurrenceCount st |}, [])
      else (st, [])
  | ACCUMULATING =>
      if active
      then
        let held := (now - activeSince st)%Z in
        if (sustainMs cfg <=? held)%Z
        then confirm k now held st
        else ({| phase := ACCUMULATING; activeSince := activeSince st;
                 consecutiveActiveDurationMs := held;
                 lastReportedAt := lastReportedAt st;
                 occurrenceCount := occurrenceCount st |}, [])
      else (to_inactive st, [])
  | CONFIRMED => confirm k now (consecutiveActiveDurationMs st) st
  | COOLDOWN =>
      match lastReportedAt st with
      | Some reported =>
          if (cooldownMs cfg <=? now - reported)%Z
          then (to_inactive st, [])
          else (st, [])
      | None => (to_inactive st, [])
      end
  end.

(** One observation as the engine sees it: its time and, per kind, whether
    the kind's condition is active in it. *)
Record Sample : Type := {
  timestamp : Z;
  conditionActive : ViolationKind -> bool
}.

Definition Tracks : Type := ViolationKind -> ViolationTrackState.

Definition initial_tracks : Tracks := fun _ => initial_track.

(** Modelled from the spec: the missing [onResults] callback as a whole.
    Every kind's machine takes one step per observation, in arrival order;
    the reports of the kinds are issued in the order of [all_kinds]. *)
Definition engine_step (cfg : Config) (s : Sample) (ts : Tracks)
  : Tracks * list Effect :=
  (fun k => fst (track_step cfg k (conditionActive s k) (timestamp s) (ts k)),
   flat_map
     (fun k =>
        snd (track_step cfg k (conditionActive s k) (timestamp s) (ts k)))
     all_kinds).

Fixpoint engine_run (cfg : Config) (samples : list Sample) (ts : Tracks)
  : Tracks * list Effect :=
  match samples with
  | [] => (ts, [])
  | s :: rest =>
      let '(ts1, out1) := engine_step cfg s ts in
      let '(ts2, out2) := engine_run cfg rest ts1 in
      (ts2, (out1 ++ out2)%list)
  end.

(** The effects that concern kind [k]. *)
Definition effects_of (k : ViolationKind) (out : list Effect) : list Effect :=
  filter (fun e => effect_kind e = k) out.

(** Modelled from the spec: the per-frame conditions the missing
    [onResults] logic derives from the face count ([faceCount == 0],
    [faceCount > allowed]), section 4.3. *)
Definition face_conditions (faceCount : nat) (k : ViolationKind) : bool :=
  match k with
  | FACE_NOT_DETECTED => (faceCount =? 0)%nat
  | MULTIPLE_FACES => (FaceDetection.MAX_FACES_ALLOWED <? faceCount)%nat
  | _ => false
  end.

End ViolationTracker.

(** ** Several hook instances sharing the lease

    Components call [requestCamera] and [releaseCamera] through their own
    instance of the hook, in any order; all of them act on the one
    module-level lease. [granted] logs the streams handed out (newest
    first). *)

Module CameraApp.
Import Browser CameraManager.

Inductive Op : Type :=
| Request (instance : nat) (consumerId : string)
| Release (instance : nat) (consumerId : string).

Record App : Type := {
  hooks : gmap nat Hook;
  world : World;
  granted : list MediaStream
}.

Definition initial_app : App :=
  {| hooks := ∅; world := initial_world; granted := [] |}.

(** An instance is mounted ([useCameraManager]) when it is first used. *)
Definition hook_of (a : App) (i : nat) : Hook :=
  default (useCameraManager (world a)) (hooks a !! i).

Definition app_step (getUserMedia : GetUserMedia) (a : App) (op : Op) : App :=
  match op with
  | Request i id =>
      let '(r, h, w) := requestCamera getUserMedia id (hook_of a i) (world a) in
      {| hooks := <[i := h]> (hooks a); world := w;
         granted := match r with
                    | Some s => s :: granted a
                    | None => granted a
                    end |}
  | Release i id =>
      let '(h, w) := releaseCamera id (hook_of a i) (world a) in
      {| hooks := <[i := h]> (hooks a); world := w; granted := granted a |}
  end.

Definition app_run (getUserMedia : GetUserMedia) (ops : list Op) (a : App)
  : App :=
  fold_left (app_step getUserMedia) ops a.


End CameraApp.

(** ** hooks/useFaceRegistration.ts *)

Module FaceRegistration.
Import Browser.

Definition hookId : string := "faceRegistration".

(** [authState.user] comes from [useAuth]; the hook reads its [id] and
    [name]. *)
Record User : Type := { user_id : string; user_name : string }.

Inductive Toast : Type :=
| ToastSuccess (message : string)
| ToastError (message : string).

(** [!authState.user?.id] *)
Definition no_user_id (u : option User) : bool :=
  match u with
  | Some user => negb (JS.truthy_string (user_id user))
  | None => true
  end.

(** One decimal digit, for the counts 1 to 3 the hook prints. *)
Definition digit (n : nat) : string :=
  String (ascii_of_nat (48 + n)) EmptyString.

Section WithBlob.
Variable Blob : Type.

Record Hook : Type := {
  cam : CameraManager.Hook;
  srcObject : option MediaStream;          (* videoRef.current.srcObject *)
  capturedImages : list Blob;
  isCapturing : bool;
  progressMessage : string;
  errorMessage : option string;
  isRegistering : bool;
  isComplete : bool;
  toasts : list Toast                      (* newest first *)
}.

(** The multipart body of the registration request. *)
Record FormData : Type := {
  form_name : string;
  form_images : list (Blob * string)       (* blob, file name *)
}.

(** What the callbacks of one render close over. *)
Record Render : Type := {
  cameraStream : option MediaStream;
  images : list Blob;
  user : option User
}.

Definition useFaceRegistration (w : CameraManager.World) : Hook :=
  {| cam := CameraManager.useCameraManager w; srcObject := None;
     capturedImages := []; isCapturing := false;
     progressMessage := "Initializing..."; errorMessage := None;
     isRegistering := false; isComplete := false; toasts := [] |}.

Definition render (u : option User) (h : Hook) : Render :=
  {| cameraStream := CameraManager.stream (cam h);
     images := capturedImages h; user := u |}.

Definition set_cam (c : CameraManager.Hook) (h : Hook) : Hook :=
  {| cam := c; srcObject := srcObject h;
     capturedImages := capturedImages h; isCapturing := isCapturing h;
     progressMessage := progressMessage h; errorMessage := errorMessage h;
     isRegistering := isRegistering h; isComplete := isComplete h;
     toasts := toasts h |}.

Definition set_srcObject (s : option MediaStream) (h : Hook) : Hook :=
  {| cam := cam h; srcObject := s;
     capturedImages := capturedImages h; isCapturing := isCapturing h;
     progressMessage := progressMessage h; errorMessage := errorMessage h;
     isRegistering := isRegistering h; isComplete := isComplete h;
     toasts := toasts h |}.

Definition setCapturedImages (l : list Blob) (h : Hook) : Hook :=
  {| cam := cam h; srcObject := srcObject h;
     capturedImages := l; isCapturing := isCapturing h;
     progressMessage := progressMessage h; errorMessage := errorMessage h;
     isRegistering := isRegistering h; isComplete := isComplete h;
     toasts := toasts h |}.

Definition setIsCapturing (b : bool) (h : Hook) : Hook :=
  {| cam := cam h; srcObject := srcObject h;
     capturedImages := capturedImages h; isCapturing := b;
     progressMessage := progressMessage h; errorMessage := errorMessage h;
     isRegistering := isRegistering h; isComplete := isComplete h;
     toasts := toasts h |}.

Definition setProgressMessage (m : string) (h : Hook) : Hook :=
  {| cam := cam h; srcObject := srcObject h;
     capturedImages := capturedImages h; isCapturing := isCapturing h;
     progressMessage := m; errorMessage := errorMessage h;
     isRegistering := isRegistering h; isComplete := isComplete h;
     toasts := toasts h |}.

Definition setErrorMessage (e : option string) (h : Hook) : Hook :=
  {| cam := cam h; srcObject := srcObject h;
     capturedImages := capturedImages h; isCapturing := isCapturing h;
     progressMessage := progressMessage h; errorMessage := e;
     isRegistering := isRegistering h; isComplete := isComplete h;
     toasts := toasts h |}.

Definition setIsRegistering (b : bool) (h : Hook) : Hook :=
  {| cam := cam h; srcObject := srcObject h;
     capturedImages := capturedImages h; isCapturing := isCapturing h;
     progressMessage := progressMessage h; errorMessage := errorMessage h;
     isRegistering := b; isComplete := isComplete h;
     toasts := toasts h |}.

Definition setIsComplete (b : bool) (h : Hook) : Hook :=
  {| cam := cam h; srcObject := srcObject h;
     capturedImages := capturedImages h; isCapturing := isCapturing h;
     progressMessage := progressMessage h; errorMessage := errorMessage h;
     isRegistering := isRegistering h; isComplete := b;
     toasts := toasts h |}.

Definition toast (t : Toast) (h : Hook) : Hook :=
  {| cam := cam h; srcObject := srcObject h;
     capturedImages := capturedImages h; isCapturing := isCapturing h;
     progressMessage := progressMessage h; errorMessage := errorMessage h;
     isRegistering := isRegistering h; isComplete := isComplete h;
     toasts := t :: toasts h |}.

(** The mount effect: [initialize()]. [videoMounted] stands for
    [videoRef.current]. *)
Definition mount (getUserMedia : GetUserMedia) (videoMounted : bool)
           (h : Hook) (w : CameraManager.World)
  : Hook * CameraManager.World :=
  let '(stream, c, w) :=
    CameraManager.requestCamera getUserMedia hookId (cam h) w in
  let h := set_cam c h in
  if JS.truthy_object stream && videoMounted
  then (setProgressMessage "Position your face and start capturing"
          (set_srcObject stream h), w)
  else (setProgressMessage "Waiting for camera access..." h, w).

(** Unmounting runs the manager's cleanup (with the id its effect read at
    mount), then the cleanup of the mount effect, [releaseCamera(hookId)]. *)
Definition unmount (captured : option string) (h : Hook)
           (w : CameraManager.World) : Hook * CameraManager.World :=
  let '(c, w) := CameraManager.unmountCleanup captured (cam h) w in
  let '(c, w) := CameraManager.releaseCamera hookId c w in
  (set_cam c h, w).


Definition resetCapture (h : Hook) : Hook :=
  setIsComplete false
    (setErrorMessage None
       (setProgressMessage "Images reset. Ready to capture again."
          (setCapturedImages [] h))).

(** [formData.append('images', capturedImages[i], `face_${i+1}.jpg`)] for
    [i] from [first] on. *)
Fixpoint image_parts (first : nat) (l : list Blob) : list (Blob * string) :=
  match l with
  | [] => []
  | b :: rest =>
      (b, "face_" ++ digit (S first) ++ ".jpg") :: image_parts (S first) rest
  end.

Definition registration_form (name : string) (l : list Blob) : FormData :=
  {| form_name := name; form_images := image_parts 0 l |}.

(** [submitRegistration]. [post] is
    [axios.post('https://api-sap.m3xd.dev/ai/register', formData, ...)],
    answering with the response's status. *)
Definition submitRegistration (post : FormData -> JS.Completion nat)
           (r : Render) (h : Hook) (w : CameraManager.World)
  : Hook * CameraManager.World :=
  if negb (length (images r) =? 3)%nat || no_user_id (user r)
  then (setErrorMessage
          (Some "Please capture all 3 images before submitting") h, w)
  else
    let h := setProgressMessage "Registering your face..."
               (setIsRegistering true h) in
    let name := match user r with
                | Some u => user_name u
                | None => ""
                end in
    let '(h, w) :=
      match post (registration_form name (images r)) with
      | JS.Return status =>
          if (status =? 200)%nat
          then
            let h := toast (ToastSuccess
                              "Face registration completed successfully!")
                       (setProgressMessage "Registration successful!"
                          (setIsComplete true h)) in
            let '(c, w) := CameraManager.releaseCamera hookId (cam h) w in
            (set_cam c h, w)
          else
            (resetCapture
               (toast (ToastError
                         "Face registration failed. Please try again.") h),
             w)
      | JS.Throw _ =>
          (toast (ToastError "Face registration failed. Please try again.")
             (setErrorMessage
                (Some "Face registration failed. Please try again.") h),
           w)
      end in
    (setIsRegistering false h, w).


End WithBlob.

End FaceRegistration.

(** ** components/FaceVerification: the modal around [initializeCamera] *)

Module VerificationModal.
Import Browser StudentService.

(** The body of the recognition request: [image] (sent as
    face_verification.jpg) and [userId]. *)
Record FormData (Blob : Type) : Type := {
  image : Blob;
  userId : string
}.
Arguments image {Blob} _.
Arguments userId {Blob} _.

Record Modal : Type := {
  view : FaceVerification.State;   (* streamRef, video, error and status *)
  isCapturing : bool;
  isVerifying : bool;
  verified : bool;
  confidenceLevel : option float;
  toasts : list FaceRegistration.Toast;    (* newest first *)
  pendingSuccess : nat   (* setTimeout(onVerificationSuccess, 1500) calls *)
}.

Definition set_view (v : FaceVerification.State) (m : Modal) : Modal :=
  {| view := v; isCapturing := isCapturing m; isVerifying := isVerifying m;
     verified := verified m; confidenceLevel := confidenceLevel m;
     toasts := toasts m; pendingSuccess := pendingSuccess m |}.

Definition setIsCapturing (b : bool) (m : Modal) : Modal :=
  {| view := view m; isCapturing := b; isVerifying := isVerifying m;
     verified := verified m; confidenceLevel := confidenceLevel m;
     toasts := toasts m; pendingSuccess := pendingSuccess m |}.

Definition setIsVerifying (b : bool) (m : Modal) : Modal :=
  {| view := view m; isCapturing := isCapturing m; isVerifying := b;
     verified := verified m; confidenceLevel := confidenceLevel m;
     toasts := toasts m; pendingSuccess := pendingSuccess m |}.

Definition setVerified (b : bool) (m : Modal) : Modal :=
  {| view := view m; isCapturing := isCapturing m;
     isVerifying := isVerifying m; verified := b;
     confidenceLevel := confidenceLevel m;
     toasts := toasts m; pendingSuccess := pendingSuccess m |}.

Definition setConfidenceLevel (c : option float) (m : Modal) : Modal :=
  {| view := view m; isCapturing := isCapturing m;
     isVerifying := isVerifying m; verified := verified m;
     confidenceLevel := c;
     toasts := toasts m; pendingSuccess := pendingSuccess m |}.

Definition toast (t : FaceRegistration.Toast) (m : Modal) : Modal :=
  {| view := view m; isCapturing := isCapturing m;
     isVerifying := isVerifying m; verified := verified m;
     confidenceLevel := confidenceLevel m;
     toasts := t :: toasts m; pendingSuccess := pendingSuccess m |}.

Definition schedule_success (m : Modal) : Modal :=
  {| view := view m; isCapturing := isCapturing m;
     isVerifying := isVerifying m; verified := verified m;
     confidenceLevel := confidenceLevel m;
     toasts := toasts m; pendingSuccess := S (pendingSuccess m) |}.

Definition setErrorMessage (e : option string) (m : Modal) : Modal :=
  set_view (FaceVerification.setErrorMessage e (view m)) m.

Definition setStatusMessage (s : string) (m : Modal) : Modal :=
  set_view
    {| FaceVerification.streamRef := FaceVerification.streamRef (view m);
       FaceVerification.videoRef := FaceVerification.videoRef (view m);
       FaceVerification.srcObject := FaceVerification.srcObject (view m);
       FaceVerification.errorMessage :=
         FaceVerification.errorMessage (view m);
       FaceVerification.statusMessage := s |} m.

(** The modal as first rendered, with its video element mounted or not. *)
Definition opened (videoMounted : bool) : Modal :=
  {| view :=
       {| FaceVerification.streamRef := None;
          FaceVerification.videoRef := videoMounted;
          FaceVerification.srcObject := None;
          FaceVerification.errorMessage := None;
          FaceVerification.statusMessage :=
            "Position your face in the frame" |};
     isCapturing := false; isVerifying := false; verified := false;
     confidenceLevel := None; toasts := []; pendingSuccess := 0 |}.

(** The effect on [show]: [initializeCamera()] when the modal is shown. *)
Definition show_effect (getUserMedia : GetUserMedia) (m : Modal)
           (calls : list Constraints) : Modal * list Constraints :=
  let '(v, calls) :=
    FaceVerification.initializeCamera getUserMedia (view m) calls in
  (set_view v m, calls).

(** The effect's cleanup: stop the tracks of [streamRef.current] and clear
    the ref. *)
Definition show_cleanup (m : Modal) (stopped : gset TrackId)
  : Modal * gset TrackId :=
  match FaceVerification.streamRef (view m) with
  | Some s =>
      (set_view
         {| FaceVerification.streamRef := None;
            FaceVerification.videoRef := FaceVerification.videoRef (view m);
            FaceVerification.srcObject :=
              FaceVerification.srcObject (view m);
            FaceVerification.errorMessage :=
              FaceVerification.errorMessage (view m);
            FaceVerification.statusMessage :=
              FaceVerification.statusMessage (view m) |} m,
       stopped ∪ list_to_set (getTracks s))
  | None => (m, stopped)
  end.

Definition handleRetry (getUserMedia : GetUserMedia) (m : Modal)
           (calls : list Constraints) : Modal * list Constraints :=
  show_effect getUserMedia
    (setStatusMessage "Position your face in the frame"
       (setVerified false (setErrorMessage None m)))
    calls.

(** A number in a condition: [0], [-0] and [NaN] are falsy. *)
Definition truthy_number (x : float) : bool :=
  negb (PrimFloat.is_zero x || PrimFloat.is_nan x).

Definition quote : string := String (ascii_of_nat 34) EmptyString.

Section CaptureAndVerify.
Variable Blob : Type.
(** [(confidence * 100).toFixed(1)] *)
Variable percent : float -> string.
(** [aiApi.post], as [verifyFaceIdentity] uses it. *)
Variable post :
  string -> FormData Blob -> JS.Completion (AxiosResponse RecognitionData).

Definition no_match_message : string :=
  "No matching face found in our system. Please try again or contact support.".

Definition mismatch_message (expected found : string) : string :=
  "Verification failed - identity mismatch. Expected " ++ quote ++ expected
  ++ quote ++ " but found " ++ quote ++ found ++ quote ++ ".".

Definition low_confidence_message (c : float) : string :=
  "Verification failed - confidence level too low: " ++ percent c
  ++ "%. Please try again with better lighting.".

Definition failed_message : string :=
  "Verification failed. Please try again or contact support.".

(** The [catch] branch. *)
Definition verification_crashed (m : Modal) : Modal :=
  toast (FaceRegistration.ToastError
           "Face verification failed. Please try again.")
    (setErrorMessage (Some failed_message) m).

(** [captureAndVerify]; [shot] is what [captureImageAsBlob] answers. *)
Definition captureAndVerify (shot : JS.Completion Blob)
           (userId userName : string) (m : Modal) : Modal :=
  if negb (FaceVerification.videoRef (view m)) then m
  else
    let m := setStatusMessage "Capturing..." (setIsCapturing true m) in
    let m :=
      match shot with
      | JS.Throw _ => verification_crashed m
      | JS.Return imageBlob =>
          let m := setStatusMessage "Verifying your identity..."
                     (setIsVerifying true (setIsCapturing false m)) in
          match verifyFaceIdentity (FormData Blob) post
                  {| image := imageBlob; userId := userId |} userName with
          | JS.Throw _ => verification_crashed m
          | JS.Return answer =>
              let r := response answer in
              if negb (JS.truthy_string (id r))
              then
                toast (FaceRegistration.ToastError
                         "Identity verification failed - no matching face found.")
                  (setErrorMessage (Some no_match_message) m)
              else if StudentService.verified answer
              then
                schedule_success
                  (toast (FaceRegistration.ToastSuccess
                            "Identity verified successfully!")
                     (setStatusMessage
                        ("Identity verified successfully! ("
                         ++ percent (confidence r) ++ "% confidence)")
                        (setConfidenceLevel (Some (confidence r))
                           (setVerified true m))))
              else if negb (nameMatches answer)
              then
                toast (FaceRegistration.ToastError
                         "Identity verification failed - name mismatch detected.")
                  (setErrorMessage
                     (Some (mismatch_message userName (name r))) m)
              else if truthy_number (confidence r)
              then
                toast (FaceRegistration.ToastError
                         "Identity verification failed. Please try again with better lighting and positioning.")
                  (setErrorMessage
                     (Some (low_confidence_message (confidence r)))
                     (setConfidenceLevel (Some (confidence r)) m))
              else
                toast (FaceRegistration.ToastError
                         "Identity verification failed. Please try again.")
                  (setErrorMessage (Some failed_message) m)
          end
      end in
    setIsVerifying false m.

End CaptureAndVerify.

End VerificationModal.

(** ** components/WebcamMonitor *)

Module WebcamMonitor.
Import Browser.

#[global] Instance Render_eq_dec : EqDecision FaceDetection.Render.
Proof. solve_decision. Defined.



End WebcamMonitor.

(** ** Concrete devices and pages used in the examples *)

Module Scenario.
Import Browser.

(** A camera that answers every request with a fresh one-track stream. *)
Definition camera_grants : GetUserMedia :=
  fun calls _ =>
    JS.Return {| stream_id := S (length calls);
                 getTracks := [10 * S (length calls)]%nat |}.

(** A camera that cannot satisfy resolution or facing-mode preferences but
    delivers a stream when asked for any video. *)
Definition camera_basic_only : GetUserMedia :=
  fun calls c =>
    match video c with
    | VideoAny => JS.Return {| stream_id := 7; getTracks := [70]%nat |}
    | VideoIdeal _ _ _ => JS.Throw (JS.DOMException "OverconstrainedError")
    end.

Definition stream1 : MediaStream := {| stream_id := 1; getTracks := [10]%nat |}.
Definition stream2 : MediaStream := {| stream_id := 2; getTracks := [20]%nat |}.
Definition basic_stream : MediaStream :=
  {| stream_id := 7; getTracks := [70]%nat |}.

(** The verification modal before its camera is initialised. *)
Definition modal_opened : FaceVerification.State :=
  {| FaceVerification.streamRef := None;
     FaceVerification.videoRef := true;
     FaceVerification.srcObject := None;
     FaceVerification.errorMessage := None;
     FaceVerification.statusMessage := "Position your face in the frame" |}.

(** A page on which the MediaPipe scripts are loaded and work. *)
Definition mediapipe_ready : FaceDetection.MediaPipe :=
  {| FaceDetection.videoRef := true;
     FaceDetection.window_FaceMesh := true;
     FaceDetection.window_Camera := true;
     FaceDetection.FaceMesh_constructs := true;
     FaceDetection.FaceMesh_configures := true;
     FaceDetection.Camera_constructs := true;
     FaceDetection.Camera_starts := true |}.

(** A page on which [window.FaceMesh] is missing. *)
Definition mediapipe_missing : FaceDetection.MediaPipe :=
  {| FaceDetection.videoRef := true;
     FaceDetection.window_FaceMesh := false;
     FaceDetection.window_Camera := true;
     FaceDetection.FaceMesh_constructs := true;
     FaceDetection.FaceMesh_configures := true;
     FaceDetection.Camera_constructs := true;
     FaceDetection.Camera_starts := true |}.

(** A page on which the scripts are loaded but [new FaceMesh(...)]
    throws. *)
Definition mediapipe_facemesh_throws : FaceDetection.MediaPipe :=
  {| FaceDetection.videoRef := true;
     FaceDetection.window_FaceMesh := true;
     FaceDetection.window_Camera := true;
     FaceDetection.FaceMesh_constructs := false;
     FaceDetection.FaceMesh_configures := true;
     FaceDetection.Camera_constructs := true;
     FaceDetection.Camera_starts := true |}.

End Scenario.

(** * Properties *)

(** ** The camera lease *)

Section CameraLease.
Import Browser CameraManager.

Lemma strict_eq_true (o : option string) (s : string) :
  JS.strict_eq o s = true <-> o = Some s.
Proof.
  destruct o as [x|]; simpl.
  - rewrite String.eqb_eq. split; congruence.
  - split; discriminate.
Qed.

Lemma strict_eq_refl (s : string) : JS.strict_eq (Some s) s = true.
Proof. apply strict_eq_true. reflexivity. Qed.

Lemma strict_eq_other (a b : string) :
  a <> b -> JS.strict_eq (Some a) b = false.
Proof. intros Hne. simpl. apply String.eqb_neq. exact Hne. Qed.

Lemma truthy_nonempty (s : string) :
  s <> "" -> JS.truthy_nullable_string (Some s) = true.
Proof.
  intros Hne. simpl. unfold JS.truthy_string.
  apply negb_true_iff, String.eqb_neq. exact Hne.
Qed.

Lemma holds_dec (w : World) (id : string) :
  JS.strict_eq (currentConsumer w) id && JS.truthy_object (streamInstance w)
  = true <-> holds w id.
Proof.
  unfold holds. rewrite andb_true_iff, strict_eq_true.
  destruct (streamInstance w); simpl; split; intros [H1 H2];
    split; eauto; try discriminate.
  destruct H2 as [x Hx]. discriminate.
Qed.

Lemma not_holds_dec (w : World) (id : string) :
  ~ holds w id ->
  JS.strict_eq (currentConsumer w) id && JS.truthy_object (streamInstance w)
  = false.
Proof.
  intros Hn. apply not_true_is_false. rewrite holds_dec. exact Hn.
Qed.

(** A successful request leaves the lease with the requester, on the
    stream it returns. *)
Lemma requestCamera_granted (gum : GetUserMedia) (id : string)
      (h h' : Hook) (w w' : World) (s : MediaStream) :
  requestCamera gum id h w = (Some s, h', w') ->
  currentConsumer w' = Some id /\ streamInstance w' = Some s.
Proof.
  unfold requestCamera.
  destruct (JS.strict_eq (currentConsumer w) id
            && JS.truthy_object (streamInstance w)) eqn:Hsame.
  - intros [= Hs _ <-]. apply holds_dec in Hsame as [Hc _]. auto.
  - destruct (JS.truthy_nullable_string (currentConsumer w)
              && negb (JS.strict_eq (currentConsumer w) id)); [discriminate|].
    destruct (gum _ preferred_constraints) as [newStream|err];
      [|discriminate].
    intros [= <- _ <-]. simpl. auto.
Qed.

(** Requests and releases keep the lease consistent. *)
Lemma requestCamera_consistent (gum : GetUserMedia) (id : string)
      (h : Hook) (w : World) :
  lease_consistent w -> lease_consistent (snd (requestCamera gum id h w)).
Proof.
  unfold lease_consistent, requestCamera. intros Hw.
  destruct (_ && _); [exact Hw|].
  destruct (_ && _); [exact Hw|].
  destruct (streamInstance w); simpl;
    destruct (gum _ preferred_constraints); simpl;
    split; intros [x Hx]; try discriminate; eauto.
Qed.

Lemma releaseCamera_consistent (id : string) (h : Hook) (w : World) :
  lease_consistent w -> lease_consistent (snd (releaseCamera id h w)).
Proof.
  unfold lease_consistent, releaseCamera. simpl. intros Hw.
  destruct (_ && _); simpl.
  - split; intros [x Hx]; discriminate.
  - destruct (JS.strict_eq (consumerIdRef h) id); exact Hw.
Qed.

End CameraLease.

Section Exclusivity.
Import Browser CameraManager.




(** C4: when [requestCamera(A)] returns a stream to a consumer that did
    not hold the lease before, calling [requestCamera(A)] again returns the
    same stream and leaves the world untouched; over the two calls
    [getUserMedia] has been called exactly once. *)
Theorem requestCamera_idempotent (gum : GetUserMedia) (A : string)
        (h h1 : Hook) (w w1 : World) (s : MediaStream) :
  ~ holds w A ->
  requestCamera gum A h w = (Some s, h1, w1) ->
  requestCamera gum A h1 w1
  = (Some s, setStream (Some s) (set_consumerIdRef (Some A) h1), w1)
  /\ gum_calls w1 = preferred_constraints :: gum_calls w.
Proof.
  intros Hfree Hfirst.
  destruct (requestCamera_granted _ _ _ _ _ _ _ Hfirst) as [Hc Hs].
  split.
  - unfold requestCamera. rewrite Hc, Hs, strict_eq_refl. reflexivity.
  - revert Hfirst. unfold requestCamera.
    rewrite (not_holds_dec _ _ Hfree).
    destruct (JS.truthy_nullable_string (currentConsumer w)
              && negb (JS.strict_eq (currentConsumer w) A)); [discriminate|].
    destruct (streamInstance w) as [old|]; simpl;
      destruct (gum _ preferred_constraints); try discriminate;
      intros [= _ _ <-]; reflexivity.
Qed.

Lemma requestCamera_idempotent_witness :
  let first :=
    requestCamera Scenario.camera_grants "faceDetection"
                  (useCameraManager initial_world) initial_world in
  requestCamera Scenario.camera_grants "faceDetection"
                (snd (fst first)) (snd first)
  = (Some Scenario.stream1,
     setStream (Some Scenario.stream1)
               (set_consumerIdRef (Some "faceDetection") (snd (fst first))),
     snd first)
  /\ gum_calls (snd first) = preferred_constraints :: gum_calls initial_world.
Proof.
  apply (requestCamera_idempotent Scenario.camera_grants "faceDetection"
           (useCameraManager initial_world) _ initial_world _
           Scenario.stream1).
  - intros [Hc _]. discriminate Hc.
  - reflexivity.
Defined.

End Exclusivity.

Section Release.
Import Browser CameraManager.

(** C5, as stated, fails for a caller whose hook instance never requested
    the camera under the id it releases: an instance that mounts while
    "faceRegistration" holds the camera starts with that stream in its
    local state ([useState(streamInstance)]), and [releaseCamera] called on
    it with "faceDetection" resets nothing. *)
Lemma releaseCamera_keeps_local_state_of_stranger :
  let held :=
    snd (requestCamera Scenario.camera_grants "faceRegistration"
                       (useCameraManager initial_world) initial_world) in
  let stranger := useCameraManager held in
  let '(h', w') := releaseCamera "faceDetection" stranger held in
  ~ holds held "faceDetection"
  /\ currentConsumer w' = currentConsumer held
  /\ streamInstance w' = streamInstance held
  /\ stream stranger = Some Scenario.stream1
  /\ stream h' = Some Scenario.stream1
  /\ h' = stranger.
Proof.
  cbn. repeat split; try reflexivity.
  intros [Hc _]. discriminate Hc.
Qed.

(** C5 (amended): [releaseCamera(id)] called while [id] holds the lease
    stops every track of the leased stream, clears [currentConsumer] and
    [streamInstance], and resets the caller's local stream, loading and
    error state. Called while [id] does not hold the lease it leaves the
    lease and the tracks as they are; it resets the caller's local state
    when the hook instance last requested the camera as [id]
    ([consumerIdRef.current === id]), and changes nothing otherwise. *)
Theorem releaseCamera_semantics (id : string) (h : Hook) (w : World) :
  let '(h', w') := releaseCamera id h w in
  (forall s, currentConsumer w = Some id -> streamInstance w = Some s ->
     currentConsumer w' = None /\ streamInstance w' = None
     /\ (forall t, t ∈ getTracks s -> t ∈ stopped w')
     /\ stream h' = None /\ isLoading h' = false /\ error h' = None)
  /\ (~ holds w id ->
      currentConsumer w' = currentConsumer w
      /\ streamInstance w' = streamInstance w
      /\ stopped w' = stopped w
      /\ (consumerIdRef h = Some id ->
          stream h' = None /\ isLoading h' = false /\ error h' = None)
      /\ (consumerIdRef h <> Some id -> h' = h)).
Proof.
  unfold releaseCamera. simpl.
  destruct (JS.strict_eq (currentConsumer w) id
            && JS.truthy_object (streamInstance w)) eqn:Hholder; simpl.
  - apply holds_dec in Hholder. split.
    + intros s _ Hs. rewrite Hs. simpl. repeat split; try reflexivity.
      intros t Ht. set_solver.
    + intros Hn. contradiction.
  - destruct (JS.strict_eq (consumerIdRef h) id) eqn:Href; simpl.
    + apply strict_eq_true in Href. split.
      * intros s Hc Hs.
        assert (Hh : holds w id) by (split; [exact Hc | rewrite Hs; eauto]).
        apply holds_dec in Hh. congruence.
      * intros _. do 3 (split; [reflexivity|]).
        split; [intros _; repeat split; reflexivity | contradiction].
    + split.
      * intros s Hc Hs.
        assert (Hh : holds w id) by (split; [exact Hc | rewrite Hs; eauto]).
        apply holds_dec in Hh. congruence.
      * intros _. do 3 (split; [reflexivity|]).
        split; [|reflexivity].
        intros Heq. apply strict_eq_true in Heq. congruence.
Qed.

Lemma releaseCamera_semantics_witness :
  let '(_, hA, held) :=
    requestCamera Scenario.camera_grants "faceDetection"
                  (useCameraManager initial_world) initial_world in
  let '(h1, w1) := releaseCamera "faceDetection" hA held in
  let '(h2, w2) := releaseCamera "faceDetection" h1 w1 in
  (currentConsumer w1 = None /\ streamInstance w1 = None
   /\ (forall t, t ∈ getTracks Scenario.stream1 -> t ∈ stopped w1)
   /\ stream h1 = None /\ isLoading h1 = false /\ error h1 = None)
  /\ (currentConsumer w2 = currentConsumer w1
      /\ streamInstance w2 = streamInstance w1
      /\ stopped w2 = stopped w1
      /\ stream h2 = None /\ isLoading h2 = false /\ error h2 = None).
Proof.
  pose proof (releaseCamera_semantics "faceDetection"
    (set_local false None (Some Scenario.stream1)
       (set_local true None None
          (set_consumerIdRef (Some "faceDetection")
             (useCameraManager initial_world))))
    (set_lease (Some "faceDetection") (Some Scenario.stream1)
       (log_gum preferred_constraints initial_world))) as Hheld.
  pose proof (releaseCamera_semantics "faceDetection"
    (set_local false None None
       (set_local false None (Some Scenario.stream1)
          (set_local true None None
             (set_consumerIdRef (Some "faceDetection")
                (useCameraManager initial_world)))))
    (set_lease None None
       (stop_tracks Scenario.stream1
          (log_release "faceDetection"
             (set_lease (Some "faceDetection") (Some Scenario.stream1)
                (log_gum preferred_constraints initial_world)))))) as Hfree.
  cbn in Hheld, Hfree |- *.
  destruct Hheld as [Hheld _]. destruct Hfree as [_ Hfree].
  split.
  - apply (Hheld Scenario.stream1); reflexivity.
  - destruct Hfree as (Hc & Hs & Ht & Hlocal & _).
    + intros [Hc _]. discriminate Hc.
    + repeat split; try assumption; apply Hlocal; reflexivity.
Defined.

End Release.

Section Acquisition.
Import Browser CameraManager.

(** [requestCamera] asks the hardware at most once, and only with the
    preferred constraints. *)
Lemma requestCamera_single_attempt (gum : GetUserMedia) (id : string)
      (h : Hook) (w : World) :
  let w' := snd (requestCamera gum id h w) in
  gum_calls w' = gum_calls w
  \/ gum_calls w' = preferred_constraints :: gum_calls w.
Proof.
  unfold requestCamera.
  destruct (JS.strict_eq (currentConsumer w) id
            && JS.truthy_object (streamInstance w)); [left; reflexivity|].
  destruct (JS.truthy_nullable_string (currentConsumer w)
            && negb (JS.strict_eq (currentConsumer w) id));
    [left; reflexivity|].
  right. destruct (streamInstance w); simpl;
    destruct (gum _ preferred_constraints); reflexivity.
Qed.

(** C2 (the code does not do this): on a camera that rejects the preferred
    constraints but serves [{video: true}], [requestCamera] gives up after
    its single preferred request: it returns null with the error
    "Camera error: OverconstrainedError" and no lease. The verification
    modal's [initializeCamera], on the same camera, falls back to the
    basic constraints and obtains the stream. *)
Theorem requestCamera_has_no_fallback :
  let '(r, h, w) :=
    requestCamera Scenario.camera_basic_only "faceDetection"
                  (useCameraManager initial_world) initial_world in
  let '(modal, calls) :=
    FaceVerification.initializeCamera Scenario.camera_basic_only
                                      Scenario.modal_opened [] in
  r = None
  /\ gum_calls w = [preferred_constraints]
  /\ error h = Some "Camera error: OverconstrainedError"
  /\ currentConsumer w = None /\ streamInstance w = None
  /\ FaceVerification.streamRef modal = Some Scenario.basic_stream
  /\ FaceVerification.errorMessage modal = None
  /\ calls = [FaceVerification.basic_constraints;
              FaceVerification.ideal_constraints].
Proof. cbn. repeat split; reflexivity. Qed.

(** The fallback of [initializeCamera]: when the first request is
    rejected and the request for any video is served, the modal ends up
    with that stream and no error. *)
Lemma initializeCamera_falls_back (gum : GetUserMedia)
      (st : FaceVerification.State) (calls : list Constraints)
      (e : JS.Thrown) (s : MediaStream) :
  gum calls FaceVerification.ideal_constraints = JS.Throw e ->
  gum (FaceVerification.ideal_constraints :: calls)
      FaceVerification.basic_constraints = JS.Return s ->
  let '(st', calls') := FaceVerification.initializeCamera gum st calls in
  FaceVerification.streamRef st' = Some s
  /\ FaceVerification.errorMessage st' = None
  /\ calls' = FaceVerification.basic_constraints
              :: FaceVerification.ideal_constraints :: calls.
Proof.
  intros Hideal Hbasic. unfold FaceVerification.initializeCamera.
  rewrite Hideal, Hbasic. simpl. repeat split; reflexivity.
Qed.

End Acquisition.

Section Unmount.
Import Browser CameraManager.

(** The cleanup registered by the manager's unmount effect never releases
    anything: the effect reads [consumerIdRef.current] right after the
    first render, when no request has been made yet. *)
Lemma unmountCleanup_of_fresh_hook (w0 : World) (h : Hook) (w : World) :
  unmountCleanup (unmountEffect (useCameraManager w0)) h w = (h, w).
Proof. reflexivity. Qed.





End Unmount.

(** ** Monitoring *)

Section Monitoring.
Import Browser CameraManager.

(** [setupFaceMesh] reads and writes the hook only; in particular it never
    touches the camera manager's instance. *)
Lemma setupFaceMesh_keeps_cam (r : FaceDetection.Render)
      (mp : FaceDetection.MediaPipe) (h : FaceDetection.Hook) :
  FaceDetection.cam (snd (FaceDetection.setupFaceMesh r mp h))
  = FaceDetection.cam h.
Proof.
  unfold FaceDetection.setupFaceMesh, FaceDetection.setup_failed.
  repeat match goal with
         | |- context [if ?b then _ else _] => destruct b
         end; reflexivity.
Qed.

(** C6, as stated, fails: on a page where [new FaceMesh(...)] throws, the
    hook acquires the camera on the first [startMonitoring]; on the next
    one (the callbacks now close over the acquired stream) [setupFaceMesh]
    enters its [try] block and ends in the [catch] branch. The stream is
    kept: the lease stays with "faceDetection", no track is stopped and
    [releaseCamera] is never called. *)
Lemma startMonitoring_keeps_stream_on_setup_failure :
  let h0 := FaceDetection.useFaceDetection initial_world in
  let '(_, h1, w1) :=
    FaceDetection.startMonitoring Scenario.camera_grants
      (FaceDetection.render h0) Scenario.mediapipe_facemesh_throws h0
      initial_world in
  let '(ok, h2, w2) :=
    FaceDetection.startMonitoring Scenario.camera_grants
      (FaceDetection.render h1) Scenario.mediapipe_facemesh_throws h1 w1 in
  FaceDetection.cameraStream (FaceDetection.render h1)
  = Some Scenario.stream1
  /\ ok = false
  /\ currentConsumer w2 = Some "faceDetection"
  /\ streamInstance w2 = Some Scenario.stream1
  /\ stopped w2 = ∅
  /\ release_calls w2 = []
  /\ FaceDetection.isMonitoring h2 = false.
Proof. cbn. repeat split; reflexivity. Qed.

(** C6 (amended): when [startMonitoring] obtains the stream and
    [setupFaceMesh] then fails, [startMonitoring] returns false and leaves
    the world exactly as the acquisition left it: the lease stays with
    "faceDetection" on the acquired stream, no track is stopped and
    [releaseCamera] is not called. The stream is held until the hook is
    unmounted or [releaseCamera] is called. *)
Theorem startMonitoring_setup_failure_holds_lease
        (gum : GetUserMedia) (r : FaceDetection.Render)
        (mp : FaceDetection.MediaPipe) (h : FaceDetection.Hook)
        (w w1 : World) (c : Hook) (s : MediaStream) :
  FaceDetection.monitoring r = false ->
  requestCamera gum FaceDetection.hookId (FaceDetection.cam h) w
  = (Some s, c, w1) ->
  fst (FaceDetection.setupFaceMesh r mp (FaceDetection.set_cam c h))
  = false ->
  exists h',
    FaceDetection.startMonitoring gum r mp h w = (false, h', w1)
    /\ FaceDetection.cam h' = c
    /\ currentConsumer w1 = Some FaceDetection.hookId
    /\ streamInstance w1 = Some s
    /\ release_calls w1 = release_calls w.
Proof.
  intros Hmon Hreq Hsetup.
  destruct (requestCamera_granted _ _ _ _ _ _ _ Hreq) as [Hc Hs].
  exists (snd (FaceDetection.setupFaceMesh r mp (FaceDetection.set_cam c h))).
  split; [|split; [|split; [exact Hc | split; [exact Hs|]]]].
  - unfold FaceDetection.startMonitoring. rewrite Hmon, Hreq.
    destruct (FaceDetection.setupFaceMesh r mp (FaceDetection.set_cam c h))
      as [ok h'] eqn:Hrun.
    simpl in Hsetup |- *. rewrite Hsetup. reflexivity.
  - rewrite setupFaceMesh_keeps_cam. reflexivity.
  - revert Hreq. unfold requestCamera.
    destruct (_ && _); [intros [= _ _ <-]; reflexivity|].
    destruct (_ && _); [discriminate|].
    destruct (streamInstance w); simpl;
      destruct (gum _ preferred_constraints); try discriminate;
      intros [= _ _ <-]; reflexivity.
Qed.

Lemma startMonitoring_setup_failure_holds_lease_witness :
  let h0 := FaceDetection.useFaceDetection initial_world in
  exists h',
    FaceDetection.startMonitoring Scenario.camera_grants
      (FaceDetection.render h0) Scenario.mediapipe_missing h0 initial_world
    = (false, h',
       set_lease (Some "faceDetection") (Some Scenario.stream1)
                 (log_gum preferred_constraints initial_world))
    /\ FaceDetection.cam h'
       = set_local false None (Some Scenario.stream1)
           (set_local true None None
              (set_consumerIdRef (Some "faceDetection")
                 (useCameraManager initial_world)))
    /\ currentConsumer
         (set_lease (Some "faceDetection") (Some Scenario.stream1)
                    (log_gum preferred_constraints initial_world))
       = Some FaceDetection.hookId
    /\ streamInstance
         (set_lease (Some "faceDetection") (Some Scenario.stream1)
                    (log_gum preferred_constraints initial_world))
       = Some Scenario.stream1
    /\ release_calls
         (set_lease (Some "faceDetection") (Some Scenario.stream1)
                    (log_gum preferred_constraints initial_world))
       = release_calls initial_world.
Proof.
  apply (startMonitoring_setup_failure_holds_lease Scenario.camera_grants
           (FaceDetection.render
              (FaceDetection.useFaceDetection initial_world))
           Scenario.mediapipe_missing
           (FaceDetection.useFaceDetection initial_world)
           initial_world); reflexivity.
Defined.

End Monitoring.

Section FrameLoop.
Import FaceDetection.

Lemma onFrame_serialized (videoReady : bool) (h : Hook) (i : Inference) :
  serialized (h, i) -> serialized (onFrame videoReady h i).
Proof.
  unfold serialized, onFrame. simpl. intros [Hlen Hidle].
  destruct (isProcessingRef h) eqn:Hflag; simpl.
  - split; [exact Hlen | congruence].
  - destruct (videoReady && faceMeshRef h); simpl.
    + rewrite (Hidle eq_refl). simpl. split; [lia | discriminate].
    + split; [exact Hlen | intros _; apply Hidle; reflexivity].
Qed.

Lemma onFrame_resume_serialized (call : nat) (resolved : bool)
      (h : Hook) (i : Inference) :
  serialized (h, i) -> serialized (onFrame_resume call resolved h i).
Proof.
  unfold serialized, onFrame_resume. simpl. intros [Hlen Hidle].
  case_bool_decide as Hin; simpl; [|split; assumption].
  destruct (in_flight i) as [|k [|k' rest]]; simpl in *.
  - inversion Hin.
  - apply list_elem_of_singleton in Hin. subst k.
    rewrite filter_cons_False by (intros Hne; apply Hne; reflexivity).
    rewrite filter_nil. split; [simpl; lia | reflexivity].
  - lia.
Qed.

Lemma frame_step_serialized (ev : FrameEvent) (st : Hook * Inference) :
  serialized st -> serialized (frame_step ev st).
Proof.
  destruct st as [h i], ev as [videoReady|call resolved]; simpl.
  - apply onFrame_serialized.
  - apply onFrame_resume_serialized.
Qed.

Lemma run_frames_serialized (evs : list FrameEvent)
      (st : Hook * Inference) :
  serialized st -> serialized (run_frames evs st).
Proof.
  revert st. induction evs as [|ev evs IH]; intros st Hst; simpl.
  - exact Hst.
  - apply IH, frame_step_serialized, Hst.
Qed.

(** C7: after any sequence of frame ticks and settled inferences, at most
    one call of [faceMesh.send] is in flight; and while one is in flight a
    tick is skipped: [onFrame] issues no call and changes nothing. *)
Theorem at_most_one_inference_in_flight (evs : list FrameEvent)
        (h0 : Hook) :
  let st := run_frames evs (frames_start h0) in
  length (in_flight (snd st)) <= 1
  /\ forall videoReady : bool,
       in_flight (snd st) <> [] ->
       onFrame videoReady (fst st) (snd st) = st.
Proof.
  intros st.
  assert (Hinv : serialized st).
  { apply run_frames_serialized. split; simpl; [lia | reflexivity]. }
  destruct Hinv as [Hlen Hidle]. split; [exact Hlen|].
  intros videoReady Hbusy. unfold onFrame.
  destruct (isProcessingRef (fst st)) eqn:Hflag; simpl.
  - destruct st; reflexivity.
  - contradiction (Hbusy (Hidle eq_refl)).
Qed.

(** The loop does send: on an idle loop with a detector and a ready video,
    a tick issues one call, and the call's settling re-opens the loop. *)
Lemma onFrame_sends_when_idle (h : Hook) (i : Inference) :
  isProcessingRef h = false ->
  faceMeshRef h = true ->
  in_flight i = [] ->
  onFrame true h i
  = (set_isProcessingRef true h,
     {| issued := S (issued i); in_flight := [issued i] |})
  /\ isProcessingRef
       (fst (run_frames [Tick true; Settled (issued i) true] (h, i)))
     = false.
Proof.
  intros Hflag Hmesh Hnone. unfold run_frames, onFrame. simpl.
  unfold onFrame. rewrite Hflag, Hmesh, Hnone. simpl.
  split; [reflexivity|].
  unfold onFrame_resume. simpl.
  rewrite bool_decide_eq_true_2 by (apply list_elem_of_here).
  reflexivity.
Qed.

End FrameLoop.

(** ** The student service *)

Section Reporting.
Import StudentService.

(** C9, as stated, fails: when the request fails, the report operation
    [submitWebcamMonitorEvent] throws to its caller. *)
Lemma submitWebcamMonitorEvent_throws_on_network_failure :
  submitWebcamMonitorEvent unit
    (fun _ _ => JS.Throw (JS.Error "Network Error")) "attempt-123" tt
  = JS.Throw (JS.Error "Failed to submit webcam monitor event").
Proof. reflexivity. Qed.

(** C9 (amended): a failure to deliver a monitoring event is not
    swallowed by [submitWebcamMonitorEvent]: whatever made the request
    fail, the call rejects with the error "Failed to submit webcam monitor
    event", so it is the caller that has to catch it. *)
Theorem submitWebcamMonitorEvent_rejects (WebcamEvent : Type)
        (post : string -> WebcamEvent ->
                JS.Completion (AxiosResponse MonitorAck))
        (attemptId : string) (ev : WebcamEvent) (e : JS.Thrown) :
  post (monitor_url attemptId) ev = JS.Throw e ->
  submitWebcamMonitorEvent WebcamEvent post attemptId ev
  = JS.Throw (JS.Error "Failed to submit webcam monitor event").
Proof.
  intros Hfail. unfold submitWebcamMonitorEvent. rewrite Hfail.
  reflexivity.
Qed.

Lemma submitWebcamMonitorEvent_rejects_witness :
  submitWebcamMonitorEvent string
    (fun url _ =>
       if String.eqb url "/student/attempts/attempt-123/monitor"
       then JS.Throw (JS.DOMException "AbortError")
       else JS.Throw JS.TypeError)
    "attempt-123" "FACE_NOT_DETECTED"
  = JS.Throw (JS.Error "Failed to submit webcam monitor event").
Proof.
  apply (submitWebcamMonitorEvent_rejects string _ "attempt-123"
           "FACE_NOT_DETECTED" (JS.DOMException "AbortError")).
  reflexivity.
Defined.

(** A delivered event yields the server's acknowledgement. *)
Lemma submitWebcamMonitorEvent_delivers (WebcamEvent : Type)
      (post : string -> WebcamEvent ->
              JS.Completion (AxiosResponse MonitorAck))
      (attemptId : string) (ev : WebcamEvent)
      (res : AxiosResponse MonitorAck) :
  post (monitor_url attemptId) ev = JS.Return res ->
  submitWebcamMonitorEvent WebcamEvent post attemptId ev
  = JS.Return (data res).
Proof.
  intros Hok. unfold submitWebcamMonitorEvent. rewrite Hok. reflexivity.
Qed.

End Reporting.

Section Verification.
Import StudentService.







(** The decision on three concrete answers: a confident match, a match
    below the threshold, and a confident answer naming somebody else. *)
Example verifyFaceIdentity_examples :
  let answer n c :=
    {| id := "u-17"; name := n; confidence := c;
       registered_at := "2025-03-02T08:00:00Z" |} in
  let run r :=
    verifyFaceIdentity unit
      (fun _ _ => JS.Return {| data := DataObject r |}) tt "Tran Thi B" in
  run (answer "TRAN THI B" 0.7%float)
  = JS.Return {| response := answer "TRAN THI B" 0.7%float;
                 verified := true; nameMatches := true |}
  /\ run (answer "tran thi b" 0.69%float)
     = JS.Return {| response := answer "tran thi b" 0.69%float;
                    verified := false; nameMatches := true |}
  /\ run (answer "Tran Thi C" 0.99%float)
     = JS.Return {| response := answer "Tran Thi C" 0.99%float;
                    verified := false; nameMatches := false |}
  /\ verifyFaceIdentity unit
       (fun _ _ => JS.Return {| data := DataArray [] |}) tt "Tran Thi B"
     = JS.Throw (JS.Error "Failed to verify face identity").
Proof. vm_compute. repeat split; reflexivity. Qed.

End Verification.

(** ** Debounce *)

Section Debounce.
Import ViolationTracker.

Lemma effects_of_app (k : ViolationKind) (xs ys : list Effect) :
  effects_of k (xs ++ ys)%list
  = (effects_of k xs ++ effects_of k ys)%list.
Proof. unfold effects_of. apply filter_app. Qed.

(** A kind's machine only ever reports its own kind. *)
Lemma track_step_effects (cfg : Config) (k k' : ViolationKind)
      (active : bool) (now : Z) (st : ViolationTrackState) :
  effects_of k (snd (track_step cfg k' active now st))
  = if decide (k' = k) then snd (track_step cfg k' active now st) else [].
Proof.
  assert (Hconfirm : forall d,
    effects_of k (snd (confirm k' now d st))
    = if decide (k' = k) then snd (confirm k' now d st) else []).
  { intros d. unfold effects_of, confirm. simpl.
    destruct (decide (k' = k)) as [Heq|Hne].
    - rewrite !filter_cons_True by exact Heq. reflexivity.
    - rewrite !filter_cons_False by exact Hne. reflexivity. }
  unfold track_step.
  destruct (phase st), active; simpl;
    repeat match goal with
           | |- context [if (?a <=? ?b)%Z then _ else _] =>
               destruct (a <=? b)%Z
           | |- context [match lastReportedAt st with _ => _ end] =>
               destruct (lastReportedAt st)
           end;
    simpl; try apply Hconfirm; destruct (decide (k' = k)); reflexivity.
Qed.

Lemma engine_step_effects (cfg : Config) (s : Sample) (ts : Tracks)
      (k : ViolationKind) :
  effects_of k (snd (engine_step cfg s ts))
  = snd (track_step cfg k (conditionActive s k) (timestamp s) (ts k)).
Proof.
  unfold engine_step, all_kinds. simpl.
  rewrite !effects_of_app, !track_step_effects.
  destruct k; simpl; rewrite ?app_nil_r; reflexivity.
Qed.

Lemma engine_run_cons (cfg : Config) (s : Sample) (rest : list Sample)
      (ts : Tracks) :
  engine_run cfg (s :: rest) ts
  = (fst (engine_run cfg rest (fst (engine_step cfg s ts))),
     (snd (engine_step cfg s ts)
      ++ snd (engine_run cfg rest (fst (engine_step cfg s ts))))%list).
Proof.
  simpl. destruct (engine_run cfg rest _) as [ts2 out2]. reflexivity.
Qed.

(** While the condition stays active for less than [sustainMs] after the
    time it became active, the machine stays in [ACCUMULATING] without a
    report; the first clear observation sends it back to [INACTIVE]. *)
Lemma accumulating_then_clear (cfg : Config) (k : ViolationKind)
      (since : Z) (rest : list Sample) (clear : Sample) (ts : Tracks) :
  phase (ts k) = ACCUMULATING ->
  activeSince (ts k) = since ->
  Forall (fun s => conditionActive s k = true
                   /\ (timestamp s - since < sustainMs cfg)%Z) rest ->
  conditionActive clear k = false ->
  effects_of k (snd (engine_run cfg (rest ++ [clear]) ts)) = []
  /\ phase (fst (engine_run cfg (rest ++ [clear]) ts) k) = INACTIVE.
Proof.
  intros Hphase Hsince Hrest Hclear. revert ts Hphase Hsince.
  induction Hrest as [|s rest [Hactive Hshort] _ IH];
    intros ts Hphase Hsince.
  - change ([] ++ [clear])%list with [clear].
    rewrite engine_run_cons. cbn [fst snd engine_run].
    rewrite app_nil_r, engine_step_effects.
    unfold engine_step, track_step. cbn [fst snd].
    rewrite Hphase, Hclear. simpl. auto.
  - change ((s :: rest) ++ [clear])%list with (s :: (rest ++ [clear]))%list.
    rewrite engine_run_cons. cbn [fst snd].
    rewrite effects_of_app, engine_step_effects.
    assert (Hstep :
      track_step cfg k (conditionActive s k) (timestamp s) (ts k)
      = ({| phase := ACCUMULATING; activeSince := activeSince (ts k);
            consecutiveActiveDurationMs := timestamp s - activeSince (ts k);
            lastReportedAt := lastReportedAt (ts k);
            occurrenceCount := occurrenceCount (ts k) |}, [])).
    { unfold track_step. rewrite Hphase, Hactive, Hsince.
      destruct (Z.leb_spec (sustainMs cfg) (timestamp s - since));
        [lia | reflexivity]. }
    rewrite Hstep. simpl.
    apply IH; unfold engine_step; simpl; rewrite Hstep; simpl; auto.
Qed.

(** C8: for every kind, when the kind's condition becomes active on an
    inactive machine, stays active over observations that all lie less
    than the sustained duration after the first one, and then clears, no
    report of that kind is made over the whole episode (no call of the
    reporting service, no [onViolationDetected] callback), and the machine
    is back in [INACTIVE]. *)
Theorem debounce_no_report (cfg : Config) (k : ViolationKind)
        (first : Sample) (rest : list Sample) (clear : Sample)
        (ts : Tracks) :
  phase (ts k) = INACTIVE ->
  conditionActive first k = true ->
  Forall (fun s => conditionActive s k = true
                   /\ (timestamp s - timestamp first < sustainMs cfg)%Z)
         rest ->
  conditionActive clear k = false ->
  let '(ts', out) := engine_run cfg (first :: rest ++ [clear]) ts in
  effects_of k out = [] /\ phase (ts' k) = INACTIVE.
Proof.
  intros Hphase Hfirst Hrest Hclear.
  rewrite engine_run_cons.
  rewrite effects_of_app, engine_step_effects.
  assert (Hstep :
    track_step cfg k (conditionActive first k) (timestamp first) (ts k)
    = ({| phase := ACCUMULATING; activeSince := timestamp first;
          consecutiveActiveDurationMs := 0;
          lastReportedAt := lastReportedAt (ts k);
          occurrenceCount := occurrenceCount (ts k) |}, [])).
  { unfold track_step. rewrite Hphase, Hfirst. reflexivity. }
  rewrite Hstep. simpl.
  apply (accumulating_then_clear cfg k (timestamp first));
    unfold engine_step; simpl; try rewrite Hstep; auto.
Qed.

(** A 200 ms flicker of [faceCount == 0] under the default 1000 ms. *)
Lemma debounce_no_report_witness :
  let frame t faces :=
    {| timestamp := t; conditionActive := face_conditions faces |} in
  let '(ts', out) :=
    engine_run default_config
      (frame 5000%Z 0 :: [frame 5100%Z 0; frame 5200%Z 0]
       ++ [frame 5233%Z 1])
      initial_tracks in
  effects_of FACE_NOT_DETECTED out = []
  /\ phase (ts' FACE_NOT_DETECTED) = INACTIVE.
Proof.
  intros frame.
  apply (debounce_no_report default_config FACE_NOT_DETECTED
           (frame 5000%Z 0) [frame 5100%Z 0; frame 5200%Z 0]
           (frame 5233%Z 1) initial_tracks); try reflexivity.
  repeat constructor; reflexivity.
Defined.

(** The machine is not idle by construction: the same condition held for
    the sustained duration is reported, once. *)
Example sustained_condition_is_reported :
  let frame t faces :=
    {| timestamp := t; conditionActive := face_conditions faces |} in
  effects_of FACE_NOT_DETECTED
    (snd (engine_run default_config
            [frame 5000%Z 0; frame 5500%Z 0; frame 6000%Z 0;
             frame 6500%Z 0; frame 7000%Z 1]
            initial_tracks))
  = [ReportSent FACE_NOT_DETECTED 6000 1000;
     ViolationDetectedCallback FACE_NOT_DETECTED].
Proof. reflexivity. Qed.

End Debounce.


(** ** The lease across many instances *)

Section LeaseTraces.
Import Browser CameraManager CameraApp.

Lemma app_run_snoc (gum : GetUserMedia) (ops : list Op) (op : Op) (a : App) :
  app_run gum (ops ++ [op])%list a = app_step gum (app_run gum ops a) op.
Proof. unfold app_run. rewrite fold_left_app. reflexivity. Qed.

Lemma app_step_consistent (gum : GetUserMedia) (a : App) (op : Op) :
  lease_consistent (world a) -> lease_consistent (world (app_step gum a op)).
Proof.
  intros Ha. destruct op as [i id|i id]; simpl.
  - pose proof (requestCamera_consistent gum id (hook_of a i) (world a) Ha)
      as Hstep.
    destruct (requestCamera gum id (hook_of a i) (world a)) as [[r h] w].
    exact Hstep.
  - pose proof (releaseCamera_consistent id (hook_of a i) (world a) Ha)
      as Hstep.
    destruct (releaseCamera id (hook_of a i) (world a)) as [h w].
    exact Hstep.
Qed.

(** Whatever the consumers do, through however many instances of the hook,
    [currentConsumer] and [streamInstance] are set together and cleared
    together. *)
Theorem lease_always_consistent (gum : GetUserMedia) (ops : list Op) :
  lease_consistent (world (app_run gum ops initial_app)).
Proof.
  induction ops as [|op ops IH] using rev_ind.
  - simpl. unfold lease_consistent. simpl. split; intros [x Hx]; discriminate.
  - rewrite app_run_snoc. apply app_step_consistent, IH.
Qed.





End LeaseTraces.

Section ReleaseAndRetry.
Import Browser CameraManager.

(** Releasing twice is releasing once: the second [releaseCamera(id)] on
    the same instance changes neither the hook nor the lease nor any
    track. *)
Theorem releaseCamera_idempotent (id : string) (h : Hook) (w : World) :
  let '(h1, w1) := releaseCamera id h w in
  releaseCamera id h1 w1 = (h1, log_release id w1).
Proof.
  unfold releaseCamera. simpl.
  destruct (JS.strict_eq (currentConsumer w) id
            && JS.truthy_object (streamInstance w)) eqn:Hholder; simpl.
  - destruct (JS.strict_eq (consumerIdRef h) id); reflexivity.
  - destruct (JS.strict_eq (consumerIdRef h) id) eqn:Href; simpl.
    + rewrite Hholder. simpl. rewrite Href. reflexivity.
    + rewrite Hholder. simpl. rewrite Href. reflexivity.
Qed.

(** A rejected hardware request: with no lease held, when [getUserMedia]
    rejects, [requestCamera] returns null, shows the message chosen from
    the rejection, ends loading, and leaves the lease free after exactly
    one hardware request. *)
Theorem requestCamera_rejected (gum : GetUserMedia) (id : string)
        (h : Hook) (w : World) (e : JS.Thrown) :
  currentConsumer w = None ->
  streamInstance w = None ->
  gum (gum_calls w) preferred_constraints = JS.Throw e ->
  let '(r, h', w') := requestCamera gum id h w in
  r = None
  /\ error h' = Some (acquisition_error e)
  /\ isLoading h' = false /\ stream h' = None
  /\ consumerIdRef h' = Some id
  /\ currentConsumer w' = None /\ streamInstance w' = None
  /\ gum_calls w' = preferred_constraints :: gum_calls w
  /\ stopped w' = stopped w.
Proof.
  intros Hc Hs Hgum. unfold requestCamera. rewrite Hc, Hs. simpl.
  rewrite Hgum. simpl. repeat split; reflexivity.
Qed.

Lemma requestCamera_rejected_witness :
  let '(r, h', w') :=
    requestCamera (fun _ _ => JS.Throw (JS.DOMException "NotAllowedError"))
                  "faceDetection" (useCameraManager initial_world)
                  initial_world in
  r = None
  /\ error h' = Some "Camera access denied."
  /\ isLoading h' = false /\ stream h' = None
  /\ consumerIdRef h' = Some "faceDetection"
  /\ currentConsumer w' = None /\ streamInstance w' = None
  /\ gum_calls w' = [preferred_constraints]
  /\ stopped w' = ∅.
Proof.
  exact (requestCamera_rejected
           (fun _ _ => JS.Throw (JS.DOMException "NotAllowedError"))
           "faceDetection" (useCameraManager initial_world) initial_world
           (JS.DOMException "NotAllowedError") eq_refl eq_refl eq_refl).
Defined.

(** Nothing of a failure is remembered: after a rejected request, the next
    [requestCamera] (a retry, or another consumer) asks the hardware again
    and is served if the hardware now delivers. *)
Theorem requestCamera_retry_after_rejection (gum : GetUserMedia)
        (id id' : string) (h h2 : Hook) (w : World) (e : JS.Thrown)
        (s : MediaStream) :
  currentConsumer w = None ->
  streamInstance w = None ->
  gum (gum_calls w) preferred_constraints = JS.Throw e ->
  gum (preferred_constraints :: gum_calls w) preferred_constraints
  = JS.Return s ->
  let '(_, _, w1) := requestCamera gum id h w in
  let '(r, h', w') := requestCamera gum id' h2 w1 in
  r = Some s
  /\ error h' = None
  /\ currentConsumer w' = Some id' /\ streamInstance w' = Some s
  /\ gum_calls w' = preferred_constraints :: preferred_constraints
                    :: gum_calls w.
Proof.
  intros Hc Hs Hfail Hok. unfold requestCamera. rewrite Hc, Hs. simpl.
  rewrite Hfail. simpl. rewrite Hok. simpl. repeat split; reflexivity.
Qed.

Lemma requestCamera_retry_after_rejection_witness :
  let gum : GetUserMedia :=
    fun calls _ =>
      match calls with
      | [] => JS.Throw (JS.DOMException "NotReadableError")
      | _ => JS.Return Scenario.stream2
      end in
  let '(_, _, w1) :=
    requestCamera gum "faceDetection" (useCameraManager initial_world)
                  initial_world in
  let '(r, h', w') :=
    requestCamera gum "faceRegistration" (useCameraManager initial_world) w1 in
  r = Some Scenario.stream2
  /\ error h' = None
  /\ currentConsumer w' = Some "faceRegistration"
  /\ streamInstance w' = Some Scenario.stream2
  /\ gum_calls w' = [preferred_constraints; preferred_constraints].
Proof.
  intros gum.
  exact (requestCamera_retry_after_rejection gum
           "faceDetection" "faceRegistration"
           (useCameraManager initial_world) (useCameraManager initial_world)
           initial_world (JS.DOMException "NotReadableError")
           Scenario.stream2 eq_refl eq_refl eq_refl eq_refl).
Defined.

(** A consumer that was turned away clears its "in use" error by calling
    [releaseCamera] with its own id, without disturbing the holder: the
    lease and every track stay as they were. *)
Theorem denied_consumer_release_clears_error (gum : GetUserMedia)
        (A B : string) (hB : Hook) (w : World) :
  A <> "" ->
  A <> B ->
  holds w A ->
  let '(r, h1, w1) := requestCamera gum B hB w in
  let '(h2, w2) := releaseCamera B h1 w1 in
  r = None
  /\ error h1 = Some (in_use_message A)
  /\ error h2 = None /\ stream h2 = None /\ isLoading h2 = false
  /\ currentConsumer w2 = Some A
  /\ streamInstance w2 = streamInstance w
  /\ stopped w2 = stopped w
  /\ gum_calls w2 = gum_calls w.
Proof.
  intros HA HAB [Hc [s Hs]]. unfold requestCamera. rewrite Hc, Hs.
  rewrite (strict_eq_other A B HAB), (truthy_nonempty A HA). simpl.
  unfold releaseCamera. cbn [currentConsumer streamInstance log_release].
  rewrite Hc, Hs, (strict_eq_other A B HAB).
  cbn [andb consumerIdRef setError set_local set_consumerIdRef].
  rewrite strict_eq_refl. simpl. rewrite ?Hc, ?Hs.
  repeat split; reflexivity.
Qed.

Lemma denied_consumer_release_clears_error_witness :
  let w :=
    snd (requestCamera Scenario.camera_grants "faceRegistration"
                       (useCameraManager initial_world) initial_world) in
  let '(r, h1, w1) :=
    requestCamera Scenario.camera_grants "faceDetection"
                  (useCameraManager w) w in
  let '(h2, w2) := releaseCamera "faceDetection" h1 w1 in
  r = None
  /\ error h1 = Some (in_use_message "faceRegistration")
  /\ error h2 = None /\ stream h2 = None /\ isLoading h2 = false
  /\ currentConsumer w2 = Some "faceRegistration"
  /\ streamInstance w2 = streamInstance w
  /\ stopped w2 = stopped w
  /\ gum_calls w2 = gum_calls w.
Proof.
  intros w.
  apply (denied_consumer_release_clears_error Scenario.camera_grants
           "faceRegistration" "faceDetection" (useCameraManager w) w).
  - discriminate.
  - discriminate.
  - split; [reflexivity | eexists; reflexivity].
Defined.

End ReleaseAndRetry.

(** ** The verification modal *)

Section ModalCamera.
Import Browser VerificationModal.

Lemma initializeCamera_falls_back_witness :
  let '(st', calls') :=
    FaceVerification.initializeCamera Scenario.camera_basic_only
                                      Scenario.modal_opened [] in
  FaceVerification.streamRef st' = Some Scenario.basic_stream
  /\ FaceVerification.errorMessage st' = None
  /\ calls' = [FaceVerification.basic_constraints;
               FaceVerification.ideal_constraints].
Proof.
  exact (initializeCamera_falls_back Scenario.camera_basic_only
           Scenario.modal_opened []
           (JS.DOMException "OverconstrainedError") Scenario.basic_stream
           eq_refl eq_refl).
Defined.

(** When both requests are rejected, the modal shows the message of the
    second rejection (the first one is only logged), keeps whatever stream
    it had, and has asked the hardware exactly twice. *)
Theorem initializeCamera_reports_fallback_error (gum : GetUserMedia)
        (st : FaceVerification.State) (calls : list Constraints)
        (e1 e2 : JS.Thrown) :
  gum calls FaceVerification.ideal_constraints = JS.Throw e1 ->
  gum (FaceVerification.ideal_constraints :: calls)
      FaceVerification.basic_constraints = JS.Throw e2 ->
  let '(st', calls') := FaceVerification.initializeCamera gum st calls in
  FaceVerification.errorMessage st' = Some (FaceVerification.camera_error e2)
  /\ FaceVerification.streamRef st' = FaceVerification.streamRef st
  /\ FaceVerification.srcObject st' = FaceVerification.srcObject st
  /\ FaceVerification.statusMessage st' = FaceVerification.statusMessage st
  /\ calls' = FaceVerification.basic_constraints
              :: FaceVerification.ideal_constraints :: calls.
Proof.
  intros H1 H2. unfold FaceVerification.initializeCamera.
  rewrite H1, H2. simpl. repeat split; reflexivity.
Qed.

Lemma initializeCamera_reports_fallback_error_witness :
  let gum : GetUserMedia :=
    fun calls _ =>
      match calls with
      | [] => JS.Throw (JS.DOMException "OverconstrainedError")
      | _ => JS.Throw (JS.DOMException "NotFoundError")
      end in
  let '(st', calls') :=
    FaceVerification.initializeCamera gum Scenario.modal_opened [] in
  FaceVerification.errorMessage st'
  = Some "No camera detected. Please connect a camera and try again."
  /\ FaceVerification.streamRef st' = None
  /\ FaceVerification.srcObject st' = None
  /\ FaceVerification.statusMessage st' = "Position your face in the frame"
  /\ calls' = [FaceVerification.basic_constraints;
               FaceVerification.ideal_constraints].
Proof.
  intros gum.
  exact (initializeCamera_reports_fallback_error gum Scenario.modal_opened []
           (JS.DOMException "OverconstrainedError")
           (JS.DOMException "NotFoundError") eq_refl eq_refl).
Defined.

(** Opening and closing the modal: whichever request delivered the stream,
    the effect's cleanup stops every one of its tracks and clears
    [streamRef]; tracks stopped before stay stopped. *)
Theorem modal_close_stops_stream (gum : GetUserMedia) (m : Modal)
        (calls : list Constraints) (stopped : gset TrackId)
        (s : MediaStream) :
  gum calls FaceVerification.ideal_constraints = JS.Return s
  \/ (exists e, gum calls FaceVerification.ideal_constraints = JS.Throw e
                /\ gum (FaceVerification.ideal_constraints :: calls)
                       FaceVerification.basic_constraints = JS.Return s) ->
  let '(m1, _) := show_effect gum m calls in
  let '(m2, stopped2) := show_cleanup m1 stopped in
  FaceVerification.streamRef (view m1) = Some s
  /\ FaceVerification.streamRef (view m2) = None
  /\ (forall t, t ∈ getTracks s -> t ∈ stopped2)
  /\ stopped ⊆ stopped2.
Proof.
  intros Hgum. unfold show_effect, FaceVerification.initializeCamera.
  destruct Hgum as [Hideal|[e [Hideal Hbasic]]];
    rewrite Hideal; [|rewrite Hbasic]; simpl;
    (split; [reflexivity|]; split; [reflexivity|]; split;
     [intros t Ht; set_solver | set_solver]).
Qed.

Lemma modal_close_stops_stream_witness :
  let '(m1, _) :=
    show_effect Scenario.camera_basic_only (opened true) [] in
  let '(m2, stopped2) := show_cleanup m1 ∅ in
  FaceVerification.streamRef (view m1) = Some Scenario.basic_stream
  /\ FaceVerification.streamRef (view m2) = None
  /\ (forall t, t ∈ getTracks Scenario.basic_stream -> t ∈ stopped2)
  /\ ∅ ⊆ stopped2.
Proof.
  apply (modal_close_stops_stream Scenario.camera_basic_only (opened true)
           [] ∅ Scenario.basic_stream).
  right. exists (JS.DOMException "OverconstrainedError").
  split; reflexivity.
Defined.

End ModalCamera.

Section ModalVerification.
Import Browser StudentService VerificationModal.
Variable Blob : Type.
Variable percent : float -> string.


(** When the image capture or the verification request fails, nothing is
    accepted: no success is scheduled, [verified] keeps its value, the
    general failure message is shown and [isVerifying] ends false. A failed
    capture leaves [isCapturing] set. *)
Theorem captureAndVerify_failure
        (post : string -> FormData Blob ->
                JS.Completion (AxiosResponse RecognitionData))
        (shot : JS.Completion Blob) (userId userName : string) (m : Modal) :
  FaceVerification.videoRef (view m) = true ->
  (forall b, shot = JS.Return b ->
     exists e, verifyFaceIdentity (FormData Blob) post
                 {| image := b; userId := userId |} userName = JS.Throw e) ->
  let m' := captureAndVerify Blob percent post shot userId userName m in
  pendingSuccess m' = pendingSuccess m
  /\ verified m' = verified m
  /\ FaceVerification.errorMessage (view m') = Some failed_message
  /\ isVerifying m' = false
  /\ isCapturing m' = match shot with
                      | JS.Throw _ => true
                      | JS.Return _ => false
                      end.
Proof.
  intros Hvideo Hfail m'. subst m'. unfold captureAndVerify.
  rewrite Hvideo. simpl. destruct shot as [b|e]; simpl.
  - destruct (Hfail b eq_refl) as [e He]. rewrite He. simpl.
    repeat split; reflexivity.
  - repeat split; reflexivity.
Qed.

End ModalVerification.

Section ModalVerificationExamples.
Import Browser StudentService VerificationModal.


Lemma captureAndVerify_failure_witness :
  let m' :=
    captureAndVerify unit (fun _ => "0.0")
      (fun _ _ => JS.Return {| data := DataArray [] |})
      (JS.Return tt) "u-17" "Tran Thi B" (opened true) in
  pendingSuccess m' = 0
  /\ verified m' = false
  /\ FaceVerification.errorMessage (view m')
     = Some (failed_message)
  /\ isVerifying m' = false
  /\ isCapturing m' = false.
Proof.
  apply (captureAndVerify_failure unit (fun _ => "0.0")
           (fun _ _ => JS.Return {| data := DataArray [] |})
           (JS.Return tt) "u-17" "Tran Thi B" (opened true) eq_refl).
  intros b _. eexists. reflexivity.
Defined.

End ModalVerificationExamples.

(** ** Face registration *)

Section Registration.
Import Browser CameraManager.
Variable Blob : Type.

Local Abbreviation RHook := (FaceRegistration.Hook Blob).



(** [submitRegistration] sends nothing unless exactly three images are
    held and the user has an id: whatever the server would answer, it only
    shows "Please capture all 3 images before submitting" and leaves the
    camera alone. *)
Theorem submitRegistration_requires_three_images
        (post : FaceRegistration.FormData Blob -> JS.Completion nat)
        (r : FaceRegistration.Render Blob) (h : RHook) (w : World) :
  length (FaceRegistration.images Blob r) <> 3
  \/ FaceRegistration.no_user_id (FaceRegistration.user Blob r) = true ->
  FaceRegistration.submitRegistration Blob post r h w
  = (FaceRegistration.setErrorMessage Blob
       (Some "Please capture all 3 images before submitting") h, w).
Proof.
  intros Hguard. unfold FaceRegistration.submitRegistration.
  destruct Hguard as [Hlen|Huser].
  - apply Nat.eqb_neq in Hlen. rewrite Hlen. reflexivity.
  - rewrite Huser, orb_true_r. reflexivity.
Qed.

(** The request of a complete registration carries the user's name and the
    three images in the order they were captured, named face_1.jpg,
    face_2.jpg and face_3.jpg. *)
Lemma registration_form_parts (name : string) (l : list Blob) :
  length l = 3 ->
  FaceRegistration.form_name Blob (FaceRegistration.registration_form Blob name l)
  = name
  /\ List.map fst
       (FaceRegistration.form_images Blob
          (FaceRegistration.registration_form Blob name l)) = l
  /\ List.map snd
       (FaceRegistration.form_images Blob
          (FaceRegistration.registration_form Blob name l))
     = ["face_1.jpg"; "face_2.jpg"; "face_3.jpg"].
Proof.
  destruct l as [|a [|b [|c [|d l]]]]; try discriminate.
  intros _. repeat split; reflexivity.
Qed.

(** A registration the server answers with status 200 completes and hands
    the camera back: the tracks of the leased stream are stopped and the
    lease is cleared, so the next consumer can have the camera. *)
Theorem submitRegistration_success_releases
        (post : FaceRegistration.FormData Blob -> JS.Completion nat)
        (r : FaceRegistration.Render Blob) (h : RHook) (w : World)
        (u : FaceRegistration.User) (s : MediaStream) :
  length (FaceRegistration.images Blob r) = 3 ->
  FaceRegistration.user Blob r = Some u ->
  FaceRegistration.user_id u <> "" ->
  post (FaceRegistration.registration_form Blob
          (FaceRegistration.user_name u) (FaceRegistration.images Blob r))
  = JS.Return 200 ->
  currentConsumer w = Some FaceRegistration.hookId ->
  streamInstance w = Some s ->
  let '(h', w') := FaceRegistration.submitRegistration Blob post r h w in
  FaceRegistration.isComplete Blob h' = true
  /\ FaceRegistration.isRegistering Blob h' = false
  /\ FaceRegistration.capturedImages Blob h'
     = FaceRegistration.capturedImages Blob h
  /\ stream (FaceRegistration.cam Blob h') = None
  /\ currentConsumer w' = None /\ streamInstance w' = None
  /\ (forall t, t ∈ getTracks s -> t ∈ stopped w')
  /\ release_calls w' = FaceRegistration.hookId :: release_calls w.
Proof.
  intros Hlen Huser Hid Hpost Hc Hs.
  unfold FaceRegistration.submitRegistration, FaceRegistration.no_user_id.
  rewrite Hlen, Huser. unfold JS.truthy_string.
  rewrite (proj2 (String.eqb_neq _ _) Hid). simpl.
  rewrite Hpost. simpl. unfold releaseCamera. simpl. rewrite Hc, Hs. simpl.
  repeat split; try reflexivity. intros t Ht. set_solver.
Qed.

(** A registration that fails keeps the camera for another attempt: the
    lease, the tracks and the log of releases are untouched. After a
    rejected request the images are kept and an error is shown; after an
    answer with another status the images are reset. *)
Theorem submitRegistration_failure_keeps_camera
        (post : FaceRegistration.FormData Blob -> JS.Completion nat)
        (r : FaceRegistration.Render Blob) (h : RHook) (w : World)
        (u : FaceRegistration.User) :
  length (FaceRegistration.images Blob r) = 3 ->
  FaceRegistration.user Blob r = Some u ->
  FaceRegistration.user_id u <> "" ->
  post (FaceRegistration.registration_form Blob
          (FaceRegistration.user_name u) (FaceRegistration.images Blob r))
  <> JS.Return 200 ->
  let '(h', w') := FaceRegistration.submitRegistration Blob post r h w in
  w' = w
  /\ FaceRegistration.cam Blob h' = FaceRegistration.cam Blob h
  /\ FaceRegistration.isRegistering Blob h' = false
  /\ FaceRegistration.isComplete Blob h'
     = match post (FaceRegistration.registration_form Blob
                     (FaceRegistration.user_name u)
                     (FaceRegistration.images Blob r)) with
       | JS.Return _ => false
       | JS.Throw _ => FaceRegistration.isComplete Blob h
       end
  /\ FaceRegistration.capturedImages Blob h'
     = match post (FaceRegistration.registration_form Blob
                     (FaceRegistration.user_name u)
                     (FaceRegistration.images Blob r)) with
       | JS.Return _ => []
       | JS.Throw _ => FaceRegistration.capturedImages Blob h
       end
  /\ FaceRegistration.errorMessage Blob h'
     = match post (FaceRegistration.registration_form Blob
                     (FaceRegistration.user_name u)
                     (FaceRegistration.images Blob r)) with
       | JS.Return _ => None
       | JS.Throw _ => Some "Face registration failed. Please try again."
       end.
Proof.
  intros Hlen Huser Hid Hpost.
  unfold FaceRegistration.submitRegistration, FaceRegistration.no_user_id.
  rewrite Hlen, Huser. unfold JS.truthy_string.
  rewrite (proj2 (String.eqb_neq _ _) Hid). simpl.
  destruct (post _) as [status|e]; simpl.
  - destruct (Nat.eqb_spec status 200) as [->|Hne]; [congruence|].
    simpl. repeat split; reflexivity.
  - repeat split; reflexivity.
Qed.

(** Leaving the registration page never takes the camera from another
    consumer: when the lease is with somebody else, the hook's unmount
    calls [releaseCamera] once and changes neither the lease nor any track. *)
Theorem registration_unmount_spares_other_holder (w0 : World) (h : RHook)
        (w : World) (A : string) :
  A <> FaceRegistration.hookId ->
  currentConsumer w = Some A ->
  let captured :=
    unmountEffect
      (FaceRegistration.cam Blob (FaceRegistration.useFaceRegistration Blob w0))
  in
  let '(h', w') := FaceRegistration.unmount Blob captured h w in
  currentConsumer w' = Some A
  /\ streamInstance w' = streamInstance w
  /\ stopped w' = stopped w
  /\ release_calls w' = FaceRegistration.hookId :: release_calls w.
Proof.
  intros HA Hc. unfold FaceRegistration.unmount. simpl.
  unfold releaseCamera. simpl. rewrite Hc.
  rewrite (strict_eq_other A FaceRegistration.hookId HA). simpl.
  destruct (JS.strict_eq _ _); simpl; rewrite ?Hc; repeat split; reflexivity.
Qed.

End Registration.

Section RegistrationExamples.
Import Browser CameraManager.


Lemma submitRegistration_requires_three_images_witness :
  FaceRegistration.submitRegistration nat (fun _ => JS.Return 200)
    {| FaceRegistration.cameraStream := Some Scenario.stream1;
       FaceRegistration.images := [1; 2];
       FaceRegistration.user :=
         Some {| FaceRegistration.user_id := "u-17";
                 FaceRegistration.user_name := "Tran Thi B" |} |}
    (FaceRegistration.useFaceRegistration nat initial_world) initial_world
  = (FaceRegistration.setErrorMessage nat
       (Some "Please capture all 3 images before submitting")
       (FaceRegistration.useFaceRegistration nat initial_world),
     initial_world).
Proof.
  apply (submitRegistration_requires_three_images nat).
  left. simpl. lia.
Defined.

Lemma registration_form_parts_witness :
  FaceRegistration.form_name nat
    (FaceRegistration.registration_form nat "Tran Thi B" [11; 12; 13])
  = "Tran Thi B"
  /\ List.map fst
       (FaceRegistration.form_images nat
          (FaceRegistration.registration_form nat "Tran Thi B" [11; 12; 13]))
     = [11; 12; 13]
  /\ List.map snd
       (FaceRegistration.form_images nat
          (FaceRegistration.registration_form nat "Tran Thi B" [11; 12; 13]))
     = ["face_1.jpg"; "face_2.jpg"; "face_3.jpg"].
Proof.
  exact (registration_form_parts nat "Tran Thi B" [11; 12; 13] eq_refl).
Defined.

End RegistrationExamples.

Section RegistrationOutcomes.
Import Browser CameraManager.

Lemma submitRegistration_success_releases_witness :
  let h0 := FaceRegistration.useFaceRegistration nat initial_world in
  let mounted :=
    FaceRegistration.mount nat Scenario.camera_grants true h0 initial_world in
  let r :=
    {| FaceRegistration.cameraStream := Some Scenario.stream1;
       FaceRegistration.images := [11; 12; 13];
       FaceRegistration.user :=
         Some {| FaceRegistration.user_id := "u-17";
                 FaceRegistration.user_name := "Tran Thi B" |} |} in
  let '(h', w') :=
    FaceRegistration.submitRegistration nat (fun _ => JS.Return 200) r
      (fst mounted) (snd mounted) in
  FaceRegistration.isComplete nat h' = true
  /\ FaceRegistration.isRegistering nat h' = false
  /\ FaceRegistration.capturedImages nat h'
     = FaceRegistration.capturedImages nat (fst mounted)
  /\ stream (FaceRegistration.cam nat h') = None
  /\ currentConsumer w' = None /\ streamInstance w' = None
  /\ (forall t, t ∈ getTracks Scenario.stream1 -> t ∈ stopped w')
  /\ release_calls w' = ["faceRegistration"].
Proof.
  intros h0 mounted r.
  exact (submitRegistration_success_releases nat (fun _ => JS.Return 200) r
           (fst mounted) (snd mounted)
           {| FaceRegistration.user_id := "u-17";
              FaceRegistration.user_name := "Tran Thi B" |}
           Scenario.stream1 eq_refl eq_refl
           ltac:(discriminate) eq_refl eq_refl eq_refl).
Defined.

Lemma submitRegistration_failure_keeps_camera_witness :
  let h0 := FaceRegistration.useFaceRegistration nat initial_world in
  let mounted :=
    FaceRegistration.mount nat Scenario.camera_grants true h0 initial_world in
  let r :=
    {| FaceRegistration.cameraStream := Some Scenario.stream1;
       FaceRegistration.images := [11; 12; 13];
       FaceRegistration.user :=
         Some {| FaceRegistration.user_id := "u-17";
                 FaceRegistration.user_name := "Tran Thi B" |} |} in
  let '(h', w') :=
    FaceRegistration.submitRegistration nat
      (fun _ => JS.Throw (JS.Error "Network Error")) r
      (fst mounted) (snd mounted) in
  w' = snd mounted
  /\ FaceRegistration.cam nat h' = FaceRegistration.cam nat (fst mounted)
  /\ FaceRegistration.isRegistering nat h' = false
  /\ FaceRegistration.isComplete nat h' = false
  /\ FaceRegistration.capturedImages nat h' = []
  /\ FaceRegistration.errorMessage nat h'
     = Some "Face registration failed. Please try again.".
Proof.
  intros h0 mounted r.
  exact (submitRegistration_failure_keeps_camera nat
           (fun _ => JS.Throw (JS.Error "Network Error")) r
           (fst mounted) (snd mounted)
           {| FaceRegistration.user_id := "u-17";
              FaceRegistration.user_name := "Tran Thi B" |}
           eq_refl eq_refl ltac:(discriminate) ltac:(discriminate)).
Defined.

Lemma registration_unmount_spares_other_holder_witness :
  let w :=
    snd (requestCamera Scenario.camera_grants "faceDetection"
                       (useCameraManager initial_world) initial_world) in
  let h := FaceRegistration.useFaceRegistration nat initial_world in
  let '(h', w') :=
    FaceRegistration.unmount nat
      (unmountEffect (FaceRegistration.cam nat h)) h w in
  currentConsumer w' = Some "faceDetection"
  /\ streamInstance w' = streamInstance w
  /\ stopped w' = stopped w
  /\ release_calls w' = "faceRegistration" :: release_calls w.
Proof.
  intros w h.
  exact (registration_unmount_spares_other_holder nat initial_world h w
           "faceDetection" ltac:(discriminate) eq_refl).
Defined.

End RegistrationOutcomes.

(** ** Starting and running the monitor *)

Section MonitorStart.
Import Browser CameraManager.

(** While another consumer holds the camera, monitoring cannot start:
    [startMonitoring] returns false, shows the "in use" error, asks the
    hardware for nothing and leaves the holder's lease and the monitoring
    flag as they are. *)
Theorem startMonitoring_blocked_by_holder (gum : GetUserMedia)
        (r : FaceDetection.Render) (mp : FaceDetection.MediaPipe)
        (h : FaceDetection.Hook) (w : World) (A : string) :
  A <> "" ->
  A <> FaceDetection.hookId ->
  holds w A ->
  FaceDetection.monitoring r = false ->
  let '(ok, h', w') := FaceDetection.startMonitoring gum r mp h w in
  ok = false
  /\ w' = w
  /\ error (FaceDetection.cam h') = Some (in_use_message A)
  /\ FaceDetection.isMonitoring h' = FaceDetection.isMonitoring h
  /\ FaceDetection.cameraRef h' = FaceDetection.cameraRef h.
Proof.
  intros HA Hne [Hc [s Hs]] Hmon.
  unfold FaceDetection.startMonitoring. rewrite Hmon.
  unfold requestCamera. rewrite Hc, Hs.
  rewrite (strict_eq_other A _ Hne), (truthy_nonempty A HA). simpl.
  repeat split; reflexivity.
Qed.

Lemma startMonitoring_blocked_by_holder_witness :
  let w :=
    snd (requestCamera Scenario.camera_grants "faceRegistration"
                       (useCameraManager initial_world) initial_world) in
  let h := FaceDetection.useFaceDetection w in
  let '(ok, h', w') :=
    FaceDetection.startMonitoring Scenario.camera_grants
      (FaceDetection.render h) Scenario.mediapipe_ready h w in
  ok = false
  /\ w' = w
  /\ error (FaceDetection.cam h') = Some (in_use_message "faceRegistration")
  /\ FaceDetection.isMonitoring h' = FaceDetection.isMonitoring h
  /\ FaceDetection.cameraRef h' = FaceDetection.cameraRef h.
Proof.
  intros w h.
  apply (startMonitoring_blocked_by_holder Scenario.camera_grants
           (FaceDetection.render h) Scenario.mediapipe_ready h w
           "faceRegistration").
  - discriminate.
  - discriminate.
  - split; [reflexivity | eexists; reflexivity].
  - reflexivity.
Defined.



End MonitorStart.

Section FrameLoopProgress.
Import FaceDetection.

Lemma frame_step_keeps_faceMesh (ev : FrameEvent) (st : Hook * Inference) :
  faceMeshRef (fst (frame_step ev st)) = faceMeshRef (fst st).
Proof.
  destruct st as [h i], ev as [videoReady|call resolved]; simpl.
  - unfold onFrame. destruct (_ && _); reflexivity.
  - unfold onFrame_resume. case_bool_decide; reflexivity.
Qed.

Lemma run_frames_keeps_faceMesh (evs : list FrameEvent)
      (st : Hook * Inference) :
  faceMeshRef (fst (run_frames evs st)) = faceMeshRef (fst st).
Proof.
  revert st. induction evs as [|ev evs IH]; intros st; simpl.
  - reflexivity.
  - unfold run_frames in IH. rewrite IH. apply frame_step_keeps_faceMesh.
Qed.

Lemma frame_step_flag (ev : FrameEvent) (st : Hook * Inference) :
  serialized st ->
  (isProcessingRef (fst st) = true -> in_flight (snd st) <> []) ->
  isProcessingRef (fst (frame_step ev st)) = true ->
  in_flight (snd (frame_step ev st)) <> [].
Proof.
  destruct st as [h i], ev as [videoReady|call resolved]; simpl;
    intros [Hlen Hidle] Hbusy.
  - unfold onFrame. destruct (_ && _); simpl; [discriminate | exact Hbusy].
  - unfold onFrame_resume. case_bool_decide; simpl;
      [discriminate | exact Hbusy].
Qed.

Lemma run_frames_flag (evs : list FrameEvent) (st : Hook * Inference) :
  serialized st ->
  (isProcessingRef (fst st) = true -> in_flight (snd st) <> []) ->
  isProcessingRef (fst (run_frames evs st)) = true ->
  in_flight (snd (run_frames evs st)) <> [].
Proof.
  revert st. induction evs as [|ev evs IH]; intros st Hser Hbusy; simpl.
  - exact Hbusy.
  - apply IH.
    + apply frame_step_serialized, Hser.
    + apply frame_step_flag; assumption.
Qed.

(** The loop never wedges: after any run, as soon as the pending inference
    (if there is one) has settled, by resolving or by rejecting, the next
    tick on a ready video issues a new call of [send]. *)
Theorem frame_loop_recovers (evs : list FrameEvent) (h0 : Hook)
        (resolved : bool) :
  faceMeshRef h0 = true ->
  let st := run_frames evs (frames_start h0) in
  let settled :=
    match in_flight (snd st) with
    | [] => st
    | call :: _ => onFrame_resume call resolved (fst st) (snd st)
    end in
  let next := onFrame true (fst settled) (snd settled) in
  issued (snd next) = S (issued (snd st))
  /\ in_flight (snd next) = [issued (snd st)]
  /\ isProcessingRef (fst next) = true.
Proof.
  intros Hmesh st settled next.
  assert (Hstart : serialized (frames_start h0)).
  { split; simpl; [lia | reflexivity]. }
  assert (Hinv : serialized st).
  { apply run_frames_serialized, Hstart. }
  assert (Hbusy : isProcessingRef (fst st) = true -> in_flight (snd st) <> []).
  { apply run_frames_flag; [exact Hstart | discriminate]. }
  assert (Hm : faceMeshRef (fst st) = true).
  { unfold st. rewrite run_frames_keeps_faceMesh. exact Hmesh. }
  destruct Hinv as [Hlen Hidle].
  subst next settled. destruct st as [h i]. simpl in *.
  destruct (in_flight i) as [|call [|call' rest]] eqn:Hfl; simpl in *.
  - unfold onFrame. rewrite Hm, Hfl.
    destruct (isProcessingRef h) eqn:Hflag; simpl.
    + contradiction (Hbusy eq_refl). reflexivity.
    + repeat split; reflexivity.
  - unfold onFrame_resume. simpl. rewrite Hfl.
    rewrite bool_decide_eq_true_2 by apply list_elem_of_here.
    rewrite filter_cons_False by (intros Hne; apply Hne; reflexivity).
    rewrite filter_nil. unfold onFrame. simpl. rewrite Hm. simpl.
    repeat split; reflexivity.
  - lia.
Qed.

Lemma frame_loop_recovers_witness :
  let h0 := set_faceMeshRef true (useFaceDetection CameraManager.initial_world) in
  let st :=
    run_frames [Tick true; Tick true; Settled 0 false; Tick true; Tick true]
               (frames_start h0) in
  let settled :=
    match in_flight (snd st) with
    | [] => st
    | call :: _ => onFrame_resume call false (fst st) (snd st)
    end in
  let next := onFrame true (fst settled) (snd settled) in
  issued (snd next) = S (issued (snd st))
  /\ in_flight (snd next) = [issued (snd st)]
  /\ isProcessingRef (fst next) = true.
Proof.
  exact (frame_loop_recovers
           [Tick true; Tick true; Settled 0 false; Tick true; Tick true]
           (set_faceMeshRef true
              (useFaceDetection CameraManager.initial_world))
           false eq_refl).
Defined.

End FrameLoopProgress.

(** ** The recognition request, once more *)

Section VerifyErrors.
Import StudentService.
Variable FormData : Type.
Variable post :
  string -> FormData -> JS.Completion (AxiosResponse RecognitionData).



End VerifyErrors.

Section VerifyErrorsExamples.
Import StudentService.


End VerifyErrorsExamples.

(** ** From registration to monitoring *)

Section Handoff.
Import Browser CameraManager.
Variable Blob : Type.


End Handoff.

Section HandoffExample.
Import Browser CameraManager.


End HandoffExample.
